(** * ELO pitcher rankings: the rating engine and the matchup selector

    A shallow embedding of [elo_system.py] and of [select_random_matchup]
    from [app.py].

    Ratings are Python floats in the source.  The two formula functions are
    embedded twice.  Module [Binary64] is the code's own arithmetic: IEEE
    binary64 operations, [10 ** x] as CPython's [float_pow] over the
    platform's [pow], with its [OverflowError].  Module [Elo] reads the
    same formulas in exact real arithmetic ([10 ** x] as [Rpower 10 x]); the
    store and the engine carry ratings as real numbers, where they enter
    the statements symbolically.  *)

From Stdlib Require Import Reals Lra List String ZArith Lia Bool.
From Stdlib Require Import Sorting.Sorted Sorting.Permutation.
Import ListNotations.

Open Scope R_scope.

(** ** The ELO formulas *)

Module Elo.

(** [DEFAULT_RATING = 1500], [K_FACTOR = 32]. *)
Definition DEFAULT_RATING : R := 1500.
Definition K_FACTOR : R := 32.

(** [return 1 / (1 + 10 ** ((rating_b - rating_a) / 400))] *)
Definition calculate_expected_score (rating_a rating_b : R) : R :=
  1 / (1 + Rpower 10 ((rating_b - rating_a) / 400)).

(** [update_ratings(winner_rating, loser_rating)]: the actual score is 1 for
    the winner and 0 for the loser. *)
Definition update_ratings (winner_rating loser_rating : R) : R * R :=
  let winner_expected := calculate_expected_score winner_rating loser_rating in
  let loser_expected := calculate_expected_score loser_rating winner_rating in
  let new_winner_rating := winner_rating + K_FACTOR * (1 - winner_expected) in
  let new_loser_rating := loser_rating + K_FACTOR * (0 - loser_expected) in
  (new_winner_rating, new_loser_rating).

End Elo.

Import Elo.

(** ** Results, exceptions and the state monad of the engine *)

(** A Python exception, with the text [str(e)] that the handlers format into
    their messages. *)
Inductive Exception : Type :=
| StoreError (msg : string)
| ValueError (msg : string).

Definition str (e : Exception) : string :=
  match e with
  | StoreError msg => msg
  | ValueError msg => msg
  end.

(** What a call gives back to its caller: a value, or a raised exception. *)
Inductive Result (A : Type) : Type :=
| Ok (a : A)
| Raise (e : Exception).

Arguments Ok {A} a.
Arguments Raise {A} e.

Module Store.

(** The columns [load_ratings] keeps of a row of table [elo_ratings]. *)
Record Rating : Type := {
  player_id : Z;
  player_name : string;
  elo_rating : R;
  matches_played : Z
}.

(** A row of table [elo_ratings]: the category and the four rating columns.
    The table is unique on [(award_category, player_id)]. *)
Record StoreRow : Type := {
  award_category : string;
  rating_columns : Rating
}.

(** The two requests the engine sends:
    [select("*").eq("award_category", c)] and
    [upsert(data, on_conflict="award_category,player_id")]. *)
Inductive Request : Type :=
| Select (category : string)
| Upsert (data : StoreRow).

(** The world the engine runs in: the table, the accesses that are going to
    fail ([Some msg]: the next [execute()] raises with that text), the
    requests sent so far, and the [st.error] messages shown so far. *)
Record World : Type := {
  table : list StoreRow;
  outages : list (option string);
  requests : list Request;
  ui : list string
}.

Definition M (A : Type) : Type := World -> Result A * World.

Definition ret {A} (a : A) : M A := fun w => (Ok a, w).

Definition bind {A B} (m : M A) (k : A -> M B) : M B :=
  fun w =>
    match m w with
    | (Ok a, w') => k a w'
    | (Raise e, w') => (Raise e, w')
    end.

(** [try: body except Exception as e: handler(e)] *)
Definition try_except {A} (body : M A) (handler : Exception -> M A) : M A :=
  fun w =>
    match body w with
    | (Ok a, w') => (Ok a, w')
    | (Raise e, w') => handler e w'
    end.

Declare Scope engine_scope.
Delimit Scope engine_scope with engine.
Notation "x <- m ;; k" := (bind m (fun x => k))
  (at level 61, m at next level, right associativity) : engine_scope.
Notation "m ;;; k" := (bind m (fun _ => k))
  (at level 61, right associativity) : engine_scope.

(** [st.error(message)] *)
Definition st_error (message : string) : M unit :=
  fun w => (Ok tt, {| table := table w; outages := outages w;
                      requests := requests w; ui := ui w ++ [message] |}).

Definition has_key (category : string) (id : Z) (r : StoreRow) : bool :=
  String.eqb (award_category r) category
  && Z.eqb (player_id (rating_columns r)) id.

(** The row stored for a competitor of a category, if any. *)
Definition stored (t : list StoreRow) (category : string) (id : Z)
  : option StoreRow :=
  find (has_key category id) t.

(** Insert, or overwrite the row in conflict on the key. *)
Fixpoint upsert (data : StoreRow) (t : list StoreRow) : list StoreRow :=
  match t with
  | [] => [data]
  | r :: t' =>
      if has_key (award_category data) (player_id (rating_columns data)) r
      then data :: t'
      else r :: upsert data t'
  end.

Definition select_eq (category : string) (t : list StoreRow) : list StoreRow :=
  filter (fun r => String.eqb (award_category r) category) t.

(** [.execute()]: the request is sent; the next outage, if any, makes it
    raise and leaves the table as it is.  It answers with [response.data]. *)
Definition execute (q : Request) : M (list StoreRow) :=
  fun w =>
    let sent := requests w ++ [q] in
    match outages w with
    | Some msg :: later =>
        (Raise (StoreError msg),
         {| table := table w; outages := later; requests := sent; ui := ui w |})
    | _ =>
        let later := tl (outages w) in
        match q with
        | Select category =>
            (Ok (select_eq category (table w)),
             {| table := table w; outages := later; requests := sent;
                ui := ui w |})
        | Upsert data =>
            (Ok [data],
             {| table := upsert data (table w); outages := later;
                requests := sent; ui := ui w |})
        end
    end.

End Store.

Import Store.

(** ** The rating engine of [elo_system.py] *)

Module Engine.

Local Open Scope engine_scope.
Local Open Scope string_scope.

(** A ratings DataFrame: its column labels and its rows. *)
Record DataFrame : Type := {
  columns : list string;
  rows : list Rating
}.

Definition RATING_COLUMNS : list string :=
  ["player_id"; "player_name"; "elo_rating"; "matches_played"].

(** [get_supabase_client()]: the cached client; the deployment's secrets are
    taken as configured, so the failures of the store are those of
    [execute()]. *)
Definition get_supabase_client : M unit := ret tt.

Definition load_ratings (award_category : string) : M DataFrame :=
  get_supabase_client ;;;
  try_except
    (response_data <- execute (Select award_category) ;;
     match response_data with
     | _ :: _ =>
         (* df = pd.DataFrame(response.data); return only needed columns *)
         ret {| columns := RATING_COLUMNS;
                rows := map rating_columns response_data |}
     | [] =>
         ret {| columns := RATING_COLUMNS; rows := [] |}
     end)
    (fun e =>
       st_error ("Error loading ratings: " ++ str e) ;;;
       ret {| columns := RATING_COLUMNS; rows := [] |}).

Definition update_player_rating (award_category : string) (player_id : Z)
    (player_name : string) (new_rating : R) (matches_played : Z) : M unit :=
  get_supabase_client ;;;
  try_except
    (let data :=
       {| Store.award_category := award_category;
          rating_columns :=
            {| Store.player_id := player_id;
               Store.player_name := player_name;
               elo_rating := new_rating;
               Store.matches_played := matches_played |} |} in
     _ <- execute (Upsert data) ;;
     ret tt)
    (fun e => st_error ("Error updating rating: " ++ str e)).

(** [ratings_df[ratings_df["player_id"] == player_id]] *)
Definition rows_of_player (ratings_df : DataFrame) (player_id : Z)
  : list Rating :=
  filter (fun r => Z.eqb (Store.player_id r) player_id) (rows ratings_df).

Definition get_or_create_player_rating (ratings_df : DataFrame)
    (player_id : Z) (player_name : string) : R :=
  match rows_of_player ratings_df player_id with
  | player_row :: _ => elo_rating player_row
  | [] => DEFAULT_RATING
  end.

(** The match count [record_matchup] reads: 0 unless the frame has a row. *)
Definition current_matches (ratings_df : DataFrame) (player_id : Z) : Z :=
  match rows_of_player ratings_df player_id with
  | player_row :: _ => Store.matches_played player_row
  | [] => 0%Z
  end.

Definition record_matchup (award_category : string)
    (winner_id : Z) (winner_name : string)
    (loser_id : Z) (loser_name : string) : M (R * R) :=
  ratings_df <- load_ratings award_category ;;
  let winner_rating :=
    get_or_create_player_rating ratings_df winner_id winner_name in
  let loser_rating :=
    get_or_create_player_rating ratings_df loser_id loser_name in
  let '(new_winner_rating, new_loser_rating) :=
    update_ratings winner_rating loser_rating in
  let winner_matches := current_matches ratings_df winner_id in
  let loser_matches := current_matches ratings_df loser_id in
  update_player_rating award_category winner_id winner_name
    new_winner_rating (winner_matches + 1)%Z ;;;
  update_player_rating award_category loser_id loser_name
    new_loser_rating (loser_matches + 1)%Z ;;;
  ret (new_winner_rating, new_loser_rating).

(** [x < y] as a boolean test on ratings. *)
Definition Rltb (x y : R) : bool :=
  if Rlt_dec x y then true else false.

(** [sort_values("elo_rating", ascending=False)], here an insertion sort
    that keeps the frame's order among equal ratings: a row goes behind the
    rows of strictly higher rating only.  The source leaves the order of
    ties to pandas; the statements below do not depend on it. *)
Fixpoint insert_desc (r : Rating) (l : list Rating) : list Rating :=
  match l with
  | [] => [r]
  | h :: t =>
      if Rltb (elo_rating r) (elo_rating h)
      then h :: insert_desc r t
      else r :: h :: t
  end.

Definition sort_values (l : list Rating) : list Rating :=
  fold_right insert_desc [] l.

(** [DataFrame.head(n)]: the first [n] rows, and for a negative [n] all rows
    but the last [-n]. *)
Definition head (n : Z) (l : list Rating) : list Rating :=
  if (0 <=? n)%Z
  then firstn (Z.to_nat n) l
  else firstn (List.length l - Z.to_nat (- n)) l.

Definition get_leaderboard (award_category : string) (top_n : option Z)
  : M DataFrame :=
  ratings_df <- load_ratings award_category ;;
  match rows ratings_df with
  | [] => ret ratings_df
  | _ :: _ =>
      let sorted_df := sort_values (rows ratings_df) in
      match top_n with
      | Some n =>
          ret {| columns := columns ratings_df; rows := head n sorted_df |}
      | None =>
          ret {| columns := columns ratings_df; rows := sorted_df |}
      end
  end.

End Engine.

Import Engine.

(** ** The matchup selector of [app.py] *)

Module Selector.

Local Open Scope string_scope.
Local Open Scope nat_scope.

(** A row of the candidate pool: identity and display name. *)
Record Player : Type := {
  xMLBAMID : Z;
  nameFirstLast : string
}.

(** [df.sample(n=2, replace=False)]: two rows at different positions.  The
    pair [(d1, d2)] is what the random generator supplies for this draw: the
    first position is [d1 mod len], the second is taken among the others.
    Pandas raises when the frame has fewer than two rows. *)
Definition sample2 (df : list Player) (d : nat * nat)
  : Result (Player * Player) :=
  match df with
  | first :: _ :: _ =>
      let n := List.length df in
      let i := fst d mod n in
      let j0 := snd d mod (n - 1) in
      let j := if j0 <? i then j0 else S j0 in
      Ok (nth i df first, nth j df first)
  | _ =>
      Raise (ValueError
        "Cannot take a larger sample than population when 'replace=False'")
  end.

Definition max_attempts : nat := 10.

(** [for attempt in range(max_attempts): ...], then the [raise]. *)
Fixpoint attempt_loop (df : list Player) (rng : nat -> nat * nat)
    (attempts : list nat) : Result (option Player * option Player) :=
  match attempts with
  | [] =>
      Raise (ValueError
        "Failed to select two different players after 10 attempts")
  | attempt :: rest =>
      match sample2 df (rng attempt) with
      | Raise e => Raise e
      | Ok (player1, player2) =>
          if negb (Z.eqb (xMLBAMID player1) (xMLBAMID player2))
          then Ok (Some player1, Some player2)
          else attempt_loop df rng rest
      end
  end.

(** [select_random_matchup(df)]; [rng] gives the generator's output for each
    attempt. *)
Definition select_random_matchup (df : list Player) (rng : nat -> nat * nat)
  : Result (option Player * option Player) :=
  if List.length df <? 2
  then Ok (None, None)
  else attempt_loop df rng (seq 0 max_attempts).

End Selector.

Import Selector.

(** ** Notions the statements use *)

Module Notions.

(** No outage among the next [n] accesses to the store. *)
Fixpoint calm (n : nat) (o : list (option string)) : bool :=
  match n with
  | O => true
  | S n' =>
      match o with
      | Some _ :: _ => false
      | _ => calm n' (tl o)
      end
  end.

(** The next access to the store succeeds. *)
Definition available (w : World) : bool := calm 1 (outages w).

(** The frame [load_ratings] hands to its caller in world [w]. *)
Definition loaded (category : string) (w : World) : DataFrame :=
  {| columns := RATING_COLUMNS;
     rows := if available w
             then map rating_columns (select_eq category (table w))
             else [] |}.

(** Rating and match count on record for a competitor, with the defaults of
    a competitor who has no row. *)
Definition stored_rating (t : list StoreRow) (category : string) (id : Z)
  : R :=
  match stored t category id with
  | Some r => elo_rating (rating_columns r)
  | None => DEFAULT_RATING
  end.

Definition stored_matches (t : list StoreRow) (category : string) (id : Z)
  : Z :=
  match stored t category id with
  | Some r => matches_played (rating_columns r)
  | None => 0%Z
  end.

(** The row [update_player_rating] sends. *)
Definition row_of (category : string) (id : Z) (name : string) (rating : R)
    (matches : Z) : StoreRow :=
  {| award_category := category;
     rating_columns :=
       {| player_id := id; player_name := name; elo_rating := rating;
          matches_played := matches |} |}.

(** The world after one access: the request is logged, one outage slot is
    used up, and either the table changes or a message is shown. *)
Definition after_read (category : string) (w : World) : World :=
  match outages w with
  | Some msg :: later =>
      {| table := table w; outages := later;
         requests := requests w ++ [Select category];
         ui := ui w ++ [String.append "Error loading ratings: " msg] |}
  | _ =>
      {| table := table w; outages := tl (outages w);
         requests := requests w ++ [Select category]; ui := ui w |}
  end.

Definition after_write (data : StoreRow) (w : World) : World :=
  match outages w with
  | Some msg :: later =>
      {| table := table w; outages := later;
         requests := requests w ++ [Upsert data];
         ui := ui w ++ [String.append "Error updating rating: " msg] |}
  | _ =>
      {| table := upsert data (table w); outages := tl (outages w);
         requests := requests w ++ [Upsert data]; ui := ui w |}
  end.

(** A world with an empty table, no outage ahead, nothing sent or shown. *)
Definition fresh_world : World :=
  {| table := []; outages := []; requests := []; ui := [] |}.

(** Two worlds with two rated pitchers: in the first the read of the store
    is going to fail; in the second the read succeeds, the first write fails
    and the second write succeeds. *)
Definition two_rated : list StoreRow :=
  [row_of "al_cy_young" 669373 "Tarik Skubal" 1600 5;
   row_of "al_cy_young" 676979 "Garrett Crochet" 1550 4].

Definition read_outage : World :=
  {| table := two_rated; outages := [Some "connection refused"%string];
     requests := []; ui := [] |}.

Definition write_outage : World :=
  {| table := two_rated; outages := [None; Some "timed out"%string; None];
     requests := []; ui := [] |}.

(** Descending order of the leaderboard. *)
Definition desc (a b : Rating) : Prop := (elo_rating b <= elo_rating a)%R.

End Notions.

Import Notions.

(** ** The formulas in binary64, as the code computes them *)

From Stdlib Require Floats.

Module Binary64.

Import PrimFloat FloatOps SpecFloat.

Local Open Scope float_scope.

(** The exceptions of float arithmetic in Python. *)
Inductive ArithmeticError : Type :=
| OverflowError
| ZeroDivisionError.

(** A float computation: its value, or the exception it raises. *)
Inductive Computed (A : Type) : Type :=
| Value (x : A)
| Raises (e : ArithmeticError).

Arguments Value {A} x.
Arguments Raises {A} e.


(** C's [pow(10.0, w)] for a finite [w <> 0].  [libm] stands for the
    platform's library, whose result bits this development does not fix;
    where the mathematical result exceeds the largest double ([w >= 309])
    the C standard fixes the result: [HUGE_VAL]. *)
Definition c_pow10 (libm : float -> float) (w : float) : float :=
  if 309 <=? w then infinity else libm w.

(** [10 ** iw], CPython's [float_pow] at [iv = 10.0]: the special cases it
    sorts out itself, then [pow], then [OverflowError] for a range error
    (an infinite result; an underflow to 0 is no error). *)
Definition float_pow10 (libm : float -> float) (iw : float)
  : Computed float :=
  if iw =? 0 then Value 1
  else if is_nan iw then Value iw
  else if is_infinity iw then
    if 0 <? iw then Value (abs iw) else Value 0
  else
    let ix := c_pow10 libm iw in
    if is_infinity ix then Raises OverflowError else Value ix.

(** [x / y] on floats. *)
Definition truediv (x y : float) : Computed float :=
  if y =? 0 then Raises ZeroDivisionError else Value (x / y).

(** [K_FACTOR = 32] *)
Definition K_FACTOR : float := 32.

(** [return 1 / (1 + 10 ** ((rating_b - rating_a) / 400))] *)
Definition calculate_expected_score (libm : float -> float)
    (rating_a rating_b : float) : Computed float :=
  match truediv (rating_b - rating_a) 400 with
  | Raises e => Raises e
  | Value exponent =>
      match float_pow10 libm exponent with
      | Raises e => Raises e
      | Value power => truediv 1 (1 + power)
      end
  end.

Definition update_ratings (libm : float -> float)
    (winner_rating loser_rating : float) : Computed (float * float) :=
  match calculate_expected_score libm winner_rating loser_rating with
  | Raises e => Raises e
  | Value winner_expected =>
      match calculate_expected_score libm loser_rating winner_rating with
      | Raises e => Raises e
      | Value loser_expected =>
          let new_winner_rating :=
            winner_rating + K_FACTOR * (1 - winner_expected) in
          let new_loser_rating :=
            loser_rating + K_FACTOR * (0 - loser_expected) in
          Value (new_winner_rating, new_loser_rating)
      end
  end.





End Binary64.

(** ** The key of a row *)

Module Keys.

(** The conflict key of the upsert: [(award_category, player_id)]. *)
Definition key_of (r : StoreRow) : string * Z :=
  (award_category r, player_id (rating_columns r)).

(** No two rows of the table share a key. *)
Definition unique_keys (t : list StoreRow) : Prop :=
  NoDup (map key_of t).

End Keys.

Import Keys.

(** ** A sample world for the statements on the table *)

Module Samples.

(** Two rated pitchers in the table and no outage ahead. *)
Definition steady_world : World :=
  {| table := two_rated; outages := []; requests := []; ui := [] |}.

End Samples.

Import Samples.

From Stdlib Require DecimalString DecimalPos DecimalZ.

(** ** Handling a vote, from [app.py] *)

Module App.

Local Open Scope string_scope.

(** [AWARD_NAMES]: the award keys of the tabs and their display names. *)
Definition AWARD_NAMES : list (string * string) :=
  [("al_cy_young", "AL Cy Young Award");
   ("nl_cy_young", "NL Cy Young Award");
   ("al_mariano_rivera", "AL Mariano Rivera Award");
   ("nl_trevor_hoffman", "NL Trevor Hoffman Award");
   ("al_rookie", "AL Rookie Pitcher of the Year");
   ("nl_rookie", "NL Rookie Pitcher of the Year")].

(** The values the app keeps in [st.session_state]: [None], a flag, or the
    current matchup. *)
Inductive SessionValue : Type :=
| SNone
| SBool (b : bool)
| SMatchup (player1 player2 : Player).

(** The state of a script run: the world of the store, [st.session_state]
    (a key that is not set maps to [None] here) and the messages shown with
    [st.success]. *)
Record Session : Type := {
  world : World;
  session_state : string -> option SessionValue;
  successes : list string
}.

(** How a handler ends: it returns, it stops the run with [st.rerun()], or
    an exception escapes. *)
Inductive Flow (A : Type) : Type :=
| Completed (a : A)
| Reran
| Failed (e : Exception).

Arguments Completed {A} a.
Arguments Reran {A}.
Arguments Failed {A} e.

(** [st.session_state[key] = value] *)
Definition setitem (key : string) (value : SessionValue)
    (state : string -> option SessionValue) : string -> option SessionValue :=
  fun k => if String.eqb k key then Some value else state k.

Definition handle_vote (award_category : string) (winner loser : Player)
    (s : Session) : Flow unit * Session :=
  let winner_id := xMLBAMID winner in
  let winner_name := nameFirstLast winner in
  let loser_id := xMLBAMID loser in
  let loser_name := nameFirstLast loser in
  match record_matchup award_category winner_id winner_name
                       loser_id loser_name (world s) with
  | (Raise e, w') =>
      (Failed e,
       {| world := w'; session_state := session_state s;
          successes := successes s |})
  | (Ok (new_winner_rating, new_loser_rating), w') =>
      let shown :=
        app (successes s)
            ["Vote recorded! " ++ winner_name ++ " wins this matchup."] in
      let matchup_key := "current_matchup_" ++ award_category in
      let vote_key := "vote_submitted_" ++ award_category in
      let state1 := setitem matchup_key SNone (session_state s) in
      let state2 := setitem vote_key (SBool true) state1 in
      (Reran, {| world := w'; session_state := state2; successes := shown |})
  end.

End App.

(** ** The data fetchers of [data_fetcher.py] *)

Module Fetcher.

Local Open Scope string_scope.

(** [f"{n}"] for an [int]: decimal digits, with a minus sign when negative. *)
Definition string_of_Z (z : Z) : string :=
  DecimalString.NilZero.string_of_int (Z.to_int z).

(** A decoded JSON value, as [response.json()] returns it. *)
#[local] Set Warnings "-register-all".
Inductive json : Type :=
| JNull
| JBool (b : bool)
| JInt (z : Z)
| JFloat (r : R)
| JStr (s : string)
| JList (items : list json)
| JDict (entries : list (string * json)).

(** The exceptions these functions meet.  [RequestException] stands for
    the class and those of its subclasses that are nothing else (connection
    errors, timeouts, [HTTPError]); the [JSONDecodeError] of
    [response.json()] is a [RequestException] and a [ValueError] at once. *)
Inductive PyError : Type :=
| ValueError (msg : string)
| RequestException (msg : string)
| JSONDecodeError (msg : string)
| TypeError
| AttributeError
| KeyError
| IndexError.

(** [isinstance(e, requests.RequestException)] *)
Definition is_RequestException (e : PyError) : bool :=
  match e with
  | RequestException _ | JSONDecodeError _ => true
  | _ => false
  end.

(** [isinstance(e, ValueError)] *)
Definition is_ValueError (e : PyError) : bool :=
  match e with
  | ValueError _ | JSONDecodeError _ => true
  | _ => false
  end.

(** [str(e)], the text of the exception. *)
Definition str (e : PyError) : string :=
  match e with
  | ValueError msg | RequestException msg | JSONDecodeError msg => msg
  | TypeError => "TypeError"
  | AttributeError => "AttributeError"
  | KeyError => "KeyError"
  | IndexError => "IndexError"
  end.

Inductive Outcome (A : Type) : Type :=
| Returns (a : A)
| Raises (e : PyError).

Arguments Returns {A} a.
Arguments Raises {A} e.

Inductive Param : Type :=
| PStr (s : string)
| PInt (z : Z).

(** A call [requests.get(url, params=..., timeout=...)]. *)
Record Call : Type := {
  url : string;
  params : list (string * Param);
  timeout : Z
}.

Inductive Body : Type :=
| Json (data : json)
| NotJson (error : string).

Record Response : Type := {
  status_code : Z;
  reason : string;
  response_url : string;
  body : Body
}.

Inductive Reply : Type :=
| Unreachable (error : string)
| Answered (response : Response).

(** The network: what each call is answered, the calls sent so far and the
    lines printed so far. *)
Record Net : Type := {
  respond : Call -> Reply;
  sent : list Call;
  printed : list string
}.

Definition F (A : Type) : Type := Net -> Outcome A * Net.

Definition ret {A} (a : A) : F A := fun net => (Returns a, net).

Definition raise {A} (e : PyError) : F A := fun net => (Raises e, net).

Definition bind {A B} (m : F A) (k : A -> F B) : F B :=
  fun net =>
    match m net with
    | (Returns a, net') => k a net'
    | (Raises e, net') => (Raises e, net')
    end.

Declare Scope fetch_scope.
Delimit Scope fetch_scope with fetch.
Notation "x <- m ;; k" := (bind m (fun x => k))
  (at level 61, m at next level, right associativity) : fetch_scope.
Notation "m ;;; k" := (bind m (fun _ => k))
  (at level 61, right associativity) : fetch_scope.

Local Open Scope fetch_scope.

(** A pure step that may raise. *)
Definition lift {A} (o : Outcome A) : F A := fun net => (o, net).

(** [try: body except requests.RequestException as e: handler(e)] *)
Definition except_request {A} (body : F A) (handler : PyError -> F A) : F A :=
  fun net =>
    match body net with
    | (Raises e, net') =>
        if is_RequestException e then handler e net' else (Raises e, net')
    | (Returns a, net') => (Returns a, net')
    end.

Definition print (line : string) : F unit :=
  fun net =>
    (Returns tt,
     {| respond := respond net; sent := sent net;
        printed := (printed net ++ [line])%list |}).

Definition requests_get (c : Call) : F Response :=
  fun net =>
    let net' :=
      {| respond := respond net; sent := (sent net ++ [c])%list;
         printed := printed net |} in
    match respond net c with
    | Unreachable error => (Raises (RequestException error), net')
    | Answered response => (Returns response, net')
    end.

(** [response.raise_for_status()]: an [HTTPError] for a status 4xx or 5xx. *)
Definition raise_for_status (response : Response) : Outcome unit :=
  let status := status_code response in
  if ((400 <=? status) && (status <? 500))%Z then
    Raises (RequestException
      (string_of_Z status ++ " Client Error: " ++ reason response
       ++ " for url: " ++ response_url response))
  else if ((500 <=? status) && (status <? 600))%Z then
    Raises (RequestException
      (string_of_Z status ++ " Server Error: " ++ reason response
       ++ " for url: " ++ response_url response))
  else Returns tt.

(** [response.json()] *)
Definition response_json (response : Response) : Outcome json :=
  match body response with
  | Json data => Returns data
  | NotJson error => Raises (JSONDecodeError error)
  end.

(** Lookup in a dictionary. *)
Fixpoint lookup {V} (key : string) (entries : list (string * V)) : option V :=
  match entries with
  | [] => None
  | (k, v) :: rest => if String.eqb k key then Some v else lookup key rest
  end.

(** [key in data], for a string [key]. *)
Definition contains (key : string) (data : json) : Outcome bool :=
  match data with
  | JDict entries =>
      Returns (match lookup key entries with Some _ => true | None => false end)
  | JList items =>
      Returns (existsb (fun item => match item with
                                    | JStr s => String.eqb s key
                                    | _ => false
                                    end) items)
  | JStr s =>
      Returns (match index 0 key s with Some _ => true | None => false end)
  | _ => Raises TypeError
  end.

(** [data[key]], for a string [key]. *)
Definition getitem (data : json) (key : string) : Outcome json :=
  match data with
  | JDict entries =>
      match lookup key entries with
      | Some v => Returns v
      | None => Raises KeyError
      end
  | _ => Raises TypeError
  end.

(** [len(data)] *)
Definition len (data : json) : Outcome nat :=
  match data with
  | JList items => Returns (List.length items)
  | JDict entries => Returns (List.length entries)
  | JStr s => Returns (String.length s)
  | _ => Raises TypeError
  end.

(** [data[0]] *)
Definition getitem0 (data : json) : Outcome json :=
  match data with
  | JList (first :: _) => Returns first
  | JList [] => Raises IndexError
  | JStr (String c _) => Returns (JStr (String c EmptyString))
  | JStr EmptyString => Raises IndexError
  | JDict _ => Raises KeyError
  | _ => Raises TypeError
  end.

(** [data.get(key)] and [data.get(key, default)] *)
Definition get (data : json) (key : string) (default : json) : Outcome json :=
  match data with
  | JDict entries =>
      Returns (match lookup key entries with Some v => v | None => default end)
  | _ => Raises AttributeError
  end.

(** An entry of [AWARD_CATEGORIES]. *)
Record AwardParams : Type := {
  stats : string;
  lg : string;
  ind : Z
}.

Definition AWARD_CATEGORIES : list (string * AwardParams) :=
  [("al_cy_young", {| stats := "pit"; lg := "al"; ind := 0 |});
   ("nl_cy_young", {| stats := "pit"; lg := "nl"; ind := 0 |});
   ("al_mariano_rivera", {| stats := "rel"; lg := "al"; ind := 0 |});
   ("nl_trevor_hoffman", {| stats := "rel"; lg := "nl"; ind := 0 |});
   ("al_rookie", {| stats := "pit"; lg := "al"; ind := 2 |});
   ("nl_rookie", {| stats := "pit"; lg := "nl"; ind := 2 |})].

Definition fangraphs_query (award_params : AwardParams) (season : Z)
  : list (string * Param) :=
  [("age", PStr "");
   ("pos", PStr "all");
   ("stats", PStr (stats award_params));
   ("lg", PStr (lg award_params));
   ("qual", PStr "y");
   ("season", PInt season);
   ("season1", PInt season);
   ("startdate", PStr (string_of_Z season ++ "-03-01"));
   ("enddate", PStr (string_of_Z season ++ "-11-01"));
   ("month", PInt 0);
   ("hand", PStr "");
   ("team", PInt 0);
   ("pageitems", PInt 50);
   ("pagenum", PInt 1);
   ("ind", PInt (ind award_params));
   ("rost", PInt 0);
   ("players", PStr "");
   ("type", PInt 8);
   ("postseason", PStr "");
   ("sortdir", PStr "default");
   ("sortstat", PStr "WAR")].

(** The body of [fetch_fangraphs_data], without the cache around it. *)
Definition fetch_fangraphs_data (award_category : string) (season : Z)
  : F json :=
  match lookup award_category AWARD_CATEGORIES with
  | None => raise (ValueError ("Invalid award category: " ++ award_category))
  | Some award_params =>
      response <-
        requests_get
          {| url := "https://www.fangraphs.com/api/leaders/major-league/data";
             params := fangraphs_query award_params season;
             timeout := 30 |} ;;
      lift (raise_for_status response) ;;;
      data <- lift (response_json response) ;;
      match data with
      | JDict entries =>
          match lookup "data" entries with
          | Some wrapped => ret wrapped
          | None => ret data
          end
      | _ => ret data
      end
  end.

(** The body of [fetch_propitching_data]. *)
Definition fetch_propitching_data : F json :=
  response <-
    requests_get
      {| url := "https://g837e5a6fbcb0dd-ch2sockkby63dgzo.adb.us-chicago-1.oraclecloudapps.com/ords/admin/pitcher_leaderboards/GET_SEASON";
         params := [];
         timeout := 30 |} ;;
  lift (raise_for_status response) ;;;
  data <- lift (response_json response) ;;
  match data with
  | JDict entries =>
      match lookup "items" entries with
      | Some wrapped => ret wrapped
      | None => ret data
      end
  | _ => ret data
  end.

(** The dictionary [fetch_mlb_player_info] builds. *)
Record PlayerInfo : Type := {
  nameFirstLast : json;
  currentTeamID : json;
  currentTeamName : json
}.

(** The body of [fetch_mlb_player_info]. *)
Definition fetch_mlb_player_info (mlbam_id : Z) : F (option PlayerInfo) :=
  let url := "https://statsapi.mlb.com/api/v1/people/" ++ string_of_Z mlbam_id in
  let params := [("hydrate", PStr "currentTeam")] in
  except_request
    (response <-
       requests_get {| url := url; params := params; timeout := 10 |} ;;
     lift (raise_for_status response) ;;;
     data <- lift (response_json response) ;;
     has_people <- lift (contains "people" data) ;;
     nonempty <-
       (if has_people
        then people <- lift (getitem data "people") ;;
             n <- lift (len people) ;;
             ret (0 <? n)%nat
        else ret false) ;;
     if nonempty then
       people <- lift (getitem data "people") ;;
       player <- lift (getitem0 people) ;;
       full_name <- lift (get player "fullName" (JStr "Unknown")) ;;
       has_team <- lift (contains "currentTeam" player) ;;
       if has_team then
         team <- lift (getitem player "currentTeam") ;;
         team_id <- lift (get team "id" JNull) ;;
         current_team <- lift (getitem player "currentTeam") ;;
         team_name <- lift (get current_team "name" JNull) ;;
         ret (Some {| nameFirstLast := full_name;
                      currentTeamID := team_id;
                      currentTeamName := team_name |})
       else
         ret (Some {| nameFirstLast := full_name;
                      currentTeamID := JNull;
                      currentTeamName := JNull |})
     else ret None)
    (fun e =>
       print ("Error fetching MLB player info for ID " ++ string_of_Z mlbam_id
              ++ ": " ++ str e) ;;;
       ret None).

Definition get_player_image_url (mlbam_id : Z) : string :=
  "https://img.mlbstatic.com/mlb-photos/image/upload/w_175,d_people:generic:headshot:silo:current.png,q_auto:best,f_auto/v1/people/"
  ++ string_of_Z mlbam_id ++ "/headshot/silo/current".

Definition get_team_logo_url (team_id : Z) : string :=
  "https://www.mlbstatic.com/team-logos/" ++ string_of_Z team_id ++ ".svg".

End Fetcher.

(** ** Notions the statements on the fetchers use *)

Module FetcherNotions.

Import Fetcher.

Local Open Scope string_scope.

(** The call [fetch_mlb_player_info] sends for a player. *)
Definition player_call (mlbam_id : Z) : Call :=
  {| url := "https://statsapi.mlb.com/api/v1/people/" ++ string_of_Z mlbam_id;
     params := [("hydrate", PStr "currentTeam")];
     timeout := 10 |}.

(** The call [fetch_fangraphs_data] sends for an entry of
    [AWARD_CATEGORIES]. *)
Definition fangraphs_call (award_params : AwardParams) (season : Z) : Call :=
  {| url := "https://www.fangraphs.com/api/leaders/major-league/data";
     params := fangraphs_query award_params season;
     timeout := 30 |}.

(** The request fails with a [RequestException]: no answer, a status 4xx
    or 5xx, or a body that is not JSON. *)
Definition request_fails (reply : Reply) : Prop :=
  match reply with
  | Unreachable _ => True
  | Answered response =>
      (400 <= status_code response < 600)%Z
      \/ exists error, body response = NotJson error
  end.

(** The request is answered with a status that is no error and the JSON
    value [data]. *)
Definition answers_json (reply : Reply) (data : json) : Prop :=
  exists response,
    reply = Answered response
    /\ ~ (400 <= status_code response < 600)%Z
    /\ body response = Json data.

(** The network after one more call. *)
Definition after_call (c : Call) (net : Net) : Net :=
  {| respond := respond net; sent := app (sent net) [c];
     printed := printed net |}.

(** A sample network: every call is answered 200 with the given body. *)
Definition answering (data : json) : Net :=
  {| respond := fun _ =>
       Answered {| status_code := 200; reason := "OK"; response_url := "";
                   body := Json data |};
     sent := []; printed := [] |}.

(** A sample network: every call is answered 200 with a page that is not
    JSON. *)
Definition answering_text : Net :=
  {| respond := fun _ =>
       Answered {| status_code := 200; reason := "OK"; response_url := "";
                   body := NotJson "Expecting value: line 1 column 1 (char 0)" |};
     sent := []; printed := [] |}.

(** A sample network that cannot be reached. *)
Definition unreachable : Net :=
  {| respond := fun _ => Unreachable "Connection refused";
     sent := []; printed := [] |}.

End FetcherNotions.

(** ** Facts about the power [10 ** x] *)

Section Power.

Lemma ten_pos : 0 < 10.
Proof. lra. Qed.


Lemma pow10_zero : Rpower 10 0 = 1.
Proof. apply Rpower_O, ten_pos. Qed.




End Power.



(** ** The update of the two ratings *)

Lemma expected_score_equal (a : R) : calculate_expected_score a a = 1 / 2.
Proof.
  unfold calculate_expected_score.
  replace ((a - a) / 400) with 0 by lra.
  rewrite pow10_zero. lra.
Qed.

(** The spec's first example: two competitors at 1500. *)
Example update_ratings_1500 : update_ratings 1500 1500 = (1516, 1484).
Proof.
  unfold update_ratings, K_FACTOR.
  rewrite expected_score_equal. f_equal; lra.
Qed.

(** ** The formulas in binary64 *)

Module Binary64Facts.

Import PrimFloat FloatOps FloatAxioms SpecFloat.
Import Binary64.









End Binary64Facts.

Module Formulas.

Import PrimFloat.










End Formulas.

(** ** Running the store accesses *)

Section Accesses.

Variables (category : string) (w : World).

(** [load_ratings] never raises: it answers with [loaded], in the world
    [after_read]. *)
Lemma load_ratings_run :
  load_ratings category w = (Ok (loaded category w), after_read category w).
Proof.
  unfold load_ratings, get_supabase_client, bind, ret, try_except, execute,
    st_error, loaded, after_read, available, str.
  cbn [calm].
  destruct (outages w) as [|[msg|] later]; cbn.
  - destruct (select_eq category (table w)); reflexivity.
  - reflexivity.
  - destruct (select_eq category (table w)); reflexivity.
Qed.

(** [update_player_rating] never raises either. *)
Lemma update_player_rating_run (id : Z) (name : string) (rating : R)
    (matches : Z) :
  update_player_rating category id name rating matches w
  = (Ok tt, after_write (row_of category id name rating matches) w).
Proof.
  unfold update_player_rating, get_supabase_client, bind, ret, try_except,
    execute, st_error, after_write, row_of, str.
  destruct (outages w) as [|[msg|] later]; reflexivity.
Qed.

End Accesses.

(** [record_matchup] as three accesses in a row. *)
Lemma record_matchup_run (category : string) (winner_id : Z)
    (winner_name : string) (loser_id : Z) (loser_name : string) (w : World) :
  let df := loaded category w in
  let new :=
    update_ratings (get_or_create_player_rating df winner_id winner_name)
                   (get_or_create_player_rating df loser_id loser_name) in
  let winner_row :=
    row_of category winner_id winner_name (fst new)
           (current_matches df winner_id + 1) in
  let loser_row :=
    row_of category loser_id loser_name (snd new)
           (current_matches df loser_id + 1) in
  record_matchup category winner_id winner_name loser_id loser_name w
  = (Ok new,
     after_write loser_row (after_write winner_row (after_read category w))).
Proof.
  cbn zeta. unfold record_matchup.
  unfold bind at 1. rewrite load_ratings_run.
  destruct (update_ratings _ _) as [new_winner new_loser] eqn:Hnew.
  unfold bind at 1. rewrite update_player_rating_run.
  unfold bind at 1. rewrite update_player_rating_run.
  reflexivity.
Qed.

(** The requests of an access are appended to the log, whatever happens. *)
Lemma requests_after_read (category : string) (w : World) :
  requests (after_read category w) = requests w ++ [Select category].
Proof.
  unfold after_read. destruct (outages w) as [|[msg|] later]; reflexivity.
Qed.

Lemma requests_after_write (data : StoreRow) (w : World) :
  requests (after_write data w) = requests w ++ [Upsert data].
Proof.
  unfold after_write. destruct (outages w) as [|[msg|] later]; reflexivity.
Qed.

Lemma table_after_read (category : string) (w : World) :
  table (after_read category w) = table w.
Proof.
  unfold after_read. destruct (outages w) as [|[msg|] later]; reflexivity.
Qed.

Lemma outages_after_read (category : string) (w : World) :
  outages (after_read category w) = tl (outages w).
Proof.
  unfold after_read. destruct (outages w) as [|[msg|] later]; reflexivity.
Qed.

Lemma outages_after_write (data : StoreRow) (w : World) :
  outages (after_write data w) = tl (outages w).
Proof.
  unfold after_write. destruct (outages w) as [|[msg|] later]; reflexivity.
Qed.

Lemma table_after_write (data : StoreRow) (w : World) :
  table (after_write data w)
  = if available w then upsert data (table w) else table w.
Proof.
  unfold after_write, available. cbn [calm].
  destruct (outages w) as [|[msg|] later]; reflexivity.
Qed.

Lemma record_matchup_requests (category : string) (winner_id : Z)
    (winner_name : string) (loser_id : Z) (loser_name : string) (w : World) :
  let df := loaded category w in
  let new :=
    update_ratings (get_or_create_player_rating df winner_id winner_name)
                   (get_or_create_player_rating df loser_id loser_name) in
  requests
    (snd (record_matchup category winner_id winner_name loser_id loser_name w))
  = requests w ++
    [Select category;
     Upsert (row_of category winner_id winner_name (fst new)
                    (current_matches df winner_id + 1));
     Upsert (row_of category loser_id loser_name (snd new)
                    (current_matches df loser_id + 1))].
Proof.
  cbn zeta. rewrite record_matchup_run. cbn [snd].
  rewrite !requests_after_write, requests_after_read, <- !app_assoc.
  reflexivity.
Qed.

(** ** What the engine reads *)

Section Reads.

Variables (category : string) (id : Z).

(** The first row of the frame for a player is the first row of the table
    with that key. *)
Lemma first_row_stored (t : list StoreRow) :
  hd_error
    (filter (fun r => Z.eqb (player_id r) id)
            (map rating_columns (select_eq category t)))
  = option_map rating_columns (stored t category id).
Proof.
  unfold stored, select_eq.
  induction t as [|r t IH]; [reflexivity|].
  cbn [filter find]. unfold has_key at 1.
  destruct (String.eqb (award_category r) category); cbn [andb map filter].
  - destruct (Z.eqb (player_id (rating_columns r)) id); [reflexivity | exact IH].
  - exact IH.
Qed.

Lemma read_rating_available (w : World) (name : string) :
  available w = true ->
  get_or_create_player_rating (loaded category w) id name
  = stored_rating (table w) category id.
Proof.
  intros Hav.
  unfold get_or_create_player_rating, rows_of_player, loaded, stored_rating.
  cbn [rows]. rewrite Hav.
  pose proof (first_row_stored (table w)) as H.
  destruct (filter _ _); destruct (stored _ _ _); cbn in H;
    inversion H; subst; reflexivity.
Qed.

Lemma read_matches_available (w : World) :
  available w = true ->
  current_matches (loaded category w) id
  = stored_matches (table w) category id.
Proof.
  intros Hav.
  unfold current_matches, rows_of_player, loaded, stored_matches.
  cbn [rows]. rewrite Hav.
  pose proof (first_row_stored (table w)) as H.
  destruct (filter _ _); destruct (stored _ _ _); cbn in H;
    inversion H; subst; reflexivity.
Qed.

(** A competitor without a row is not in the frame, whether the read
    succeeded or not. *)
Lemma absent_not_loaded (w : World) :
  stored (table w) category id = None ->
  rows_of_player (loaded category w) id = [].
Proof.
  intros Habs. unfold rows_of_player, loaded. cbn [rows].
  destruct (available w); [|reflexivity].
  pose proof (first_row_stored (table w)) as H.
  rewrite Habs in H. destruct (filter _ _); [reflexivity | discriminate].
Qed.

Lemma absent_rating (w : World) (name : string) :
  stored (table w) category id = None ->
  get_or_create_player_rating (loaded category w) id name = DEFAULT_RATING.
Proof.
  intros Habs. unfold get_or_create_player_rating.
  rewrite absent_not_loaded; auto.
Qed.

Lemma absent_matches (w : World) :
  stored (table w) category id = None ->
  current_matches (loaded category w) id = 0%Z.
Proof.
  intros Habs. unfold current_matches.
  rewrite absent_not_loaded; auto.
Qed.

End Reads.

(** ** What an upsert leaves in the table *)

Lemma has_key_same (data r : StoreRow) (category : string) (id : Z) :
  has_key (award_category data) (player_id (rating_columns data)) r = true ->
  has_key category id r = has_key category id data.
Proof.
  unfold has_key. intros H.
  apply andb_true_iff in H as [Hc Hi].
  apply String.eqb_eq in Hc. apply Z.eqb_eq in Hi.
  rewrite Hc, Hi. reflexivity.
Qed.

Lemma has_key_both (data r : StoreRow) (category : string) (id : Z) :
  has_key category id r = true ->
  has_key category id data = true ->
  has_key (award_category data) (player_id (rating_columns data)) r = true.
Proof.
  unfold has_key. intros Hr Hd.
  apply andb_true_iff in Hr as [Hrc Hri].
  apply andb_true_iff in Hd as [Hdc Hdi].
  apply String.eqb_eq in Hrc, Hdc. apply Z.eqb_eq in Hri, Hdi.
  rewrite Hrc, Hdc, Hri, Hdi, String.eqb_refl, Z.eqb_refl. reflexivity.
Qed.

Lemma stored_upsert (data : StoreRow) (t : list StoreRow)
    (category : string) (id : Z) :
  stored (upsert data t) category id
  = if has_key category id data then Some data else stored t category id.
Proof.
  unfold stored.
  induction t as [|r t IH]; cbn [upsert find].
  - reflexivity.
  - destruct (has_key (award_category data) _ r) eqn:Hconf; cbn [find].
    + rewrite (has_key_same data r category id Hconf).
      destruct (has_key category id data); reflexivity.
    + destruct (has_key category id r) eqn:Hr.
      * destruct (has_key category id data) eqn:Hd; [|reflexivity].
        rewrite (has_key_both data r category id Hr Hd) in Hconf.
        discriminate.
      * exact IH.
Qed.

Lemma has_key_row_of (category c : string) (id i : Z) (name : string)
    (rating : R) (matches : Z) :
  has_key c i (row_of category id name rating matches)
  = (String.eqb category c && Z.eqb id i)%bool.
Proof. reflexivity. Qed.

Lemma calm_step (n : nat) (o : list (option string)) :
  calm (S n) o = true -> calm 1 o = true /\ calm n (tl o) = true.
Proof.
  cbn [calm]. destruct o as [|[msg|] later]; cbn [tl]; intros H;
    try discriminate; split; auto.
Qed.

(** ** Recording a matchup *)

(** C4: a competitor with no row in the store enters [record_matchup] at
    rating 1500 with 0 matches: the new ratings are computed from 1500 and
    the row sent for that competitor has [matches_played = 1].  This holds
    for the winner and for the loser, and whether or not the read of the
    store succeeds. *)
Theorem record_matchup_new_competitor (category : string) (winner_id : Z)
    (winner_name : string) (loser_id : Z) (loser_name : string) (w : World) :
  let df := loaded category w in
  let run :=
    record_matchup category winner_id winner_name loser_id loser_name w in
  fst (load_ratings category w) = Ok df
  /\ (stored (table w) category winner_id = None ->
   let new :=
     update_ratings 1500
       (get_or_create_player_rating df loser_id loser_name) in
   fst run = Ok new
   /\ requests (snd run) = requests w ++
        [Select category;
         Upsert (row_of category winner_id winner_name (fst new) 1);
         Upsert (row_of category loser_id loser_name (snd new)
                        (current_matches df loser_id + 1))])
  /\ (stored (table w) category loser_id = None ->
      let new :=
        update_ratings
          (get_or_create_player_rating df winner_id winner_name) 1500 in
      fst run = Ok new
      /\ requests (snd run) = requests w ++
           [Select category;
            Upsert (row_of category winner_id winner_name (fst new)
                           (current_matches df winner_id + 1));
            Upsert (row_of category loser_id loser_name (snd new) 1)]).
Proof.
  cbn zeta. split; [rewrite load_ratings_run; reflexivity|].
  split; intros Habs.
  - rewrite record_matchup_requests, record_matchup_run. cbn [fst].
    rewrite (absent_rating category winner_id w winner_name Habs).
    rewrite (absent_matches category winner_id w Habs).
    split; reflexivity.
  - rewrite record_matchup_requests, record_matchup_run. cbn [fst].
    rewrite (absent_rating category loser_id w loser_name Habs).
    rewrite (absent_matches category loser_id w Habs).
    split; reflexivity.
Qed.

Lemma record_matchup_new_competitor_witness :
  stored (table fresh_world) "al_cy_young" 669373 = None
  /\ fst (record_matchup "al_cy_young" 669373 "Tarik Skubal"
                         676979 "Garrett Crochet" fresh_world)
     = Ok (update_ratings 1500 1500).
Proof.
  split; [reflexivity|].
  apply (proj1 (proj2 (record_matchup_new_competitor
                         "al_cy_young" 669373 "Tarik Skubal"
                         676979 "Garrett Crochet" fresh_world))).
  reflexivity.
Defined.

(** C5, as the code has it.  [record_matchup] always sends exactly two
    upserts after its read, one per participant, keyed by the category and
    the participant's id and carrying the ratings it returns.  When the read
    of the store succeeds, each upsert carries the new rating computed from
    the stored ratings and the stored match count plus one; when the two
    writes go through as well, the rows are in the table afterwards.  When
    the read fails, both upserts carry [matches_played = 1] and the ratings
    1516 and 1484 computed from the defaults, whatever is stored. *)
Theorem record_matchup_counts (category : string) (winner_id : Z)
    (winner_name : string) (loser_id : Z) (loser_name : string) (w : World) :
  let t := table w in
  let run :=
    record_matchup category winner_id winner_name loser_id loser_name w in
  exists winner_row loser_row,
    requests (snd run)
    = requests w ++ [Select category; Upsert winner_row; Upsert loser_row]
    /\ key_of winner_row = (category, winner_id)
    /\ key_of loser_row = (category, loser_id)
    /\ fst run = Ok (elo_rating (rating_columns winner_row),
                     elo_rating (rating_columns loser_row))
    /\ (available w = true ->
        let new :=
          update_ratings (stored_rating t category winner_id)
                         (stored_rating t category loser_id) in
        winner_row
        = row_of category winner_id winner_name (fst new)
                 (stored_matches t category winner_id + 1)
        /\ loser_row
           = row_of category loser_id loser_name (snd new)
                    (stored_matches t category loser_id + 1)
        /\ (calm 3 (outages w) = true ->
            stored (table (snd run)) category loser_id = Some loser_row
            /\ (winner_id <> loser_id ->
                stored (table (snd run)) category winner_id
                = Some winner_row)))
    /\ (available w = false ->
        winner_row = row_of category winner_id winner_name 1516 1
        /\ loser_row = row_of category loser_id loser_name 1484 1).
Proof.
  cbn zeta.
  rewrite record_matchup_requests, record_matchup_run. cbn [fst snd].
  set (df := loaded category w).
  set (new := update_ratings _ _).
  set (winner_row := row_of category winner_id _ _ _).
  set (loser_row := row_of category loser_id _ _ _).
  exists winner_row, loser_row.
  split; [reflexivity|]. split; [reflexivity|]. split; [reflexivity|].
  split; [destruct new; reflexivity|]. split.
  - intros Hav.
    assert (Hwin : winner_row
              = row_of category winner_id winner_name
                  (fst (update_ratings
                          (stored_rating (table w) category winner_id)
                          (stored_rating (table w) category loser_id)))
                  (stored_matches (table w) category winner_id + 1)).
    { unfold winner_row, new, df.
      rewrite !read_rating_available, !read_matches_available by exact Hav.
      reflexivity. }
    assert (Hlose : loser_row
              = row_of category loser_id loser_name
                  (snd (update_ratings
                          (stored_rating (table w) category winner_id)
                          (stored_rating (table w) category loser_id)))
                  (stored_matches (table w) category loser_id + 1)).
    { unfold loser_row, new, df.
      rewrite !read_rating_available, !read_matches_available by exact Hav.
      reflexivity. }
    split; [exact Hwin|]. split; [exact Hlose|].
    intros Hcalm.
    apply calm_step in Hcalm as [_ Hcalm].
    apply calm_step in Hcalm as [Hw Hcalm].
    apply calm_step in Hcalm as [Hl _].
    rewrite <- (outages_after_read category w) in Hw, Hl.
    assert (Htable :
      table (after_write loser_row
               (after_write winner_row (after_read category w)))
      = upsert loser_row (upsert winner_row (table w))).
    { rewrite table_after_write. unfold available.
      rewrite outages_after_write, Hl.
      rewrite table_after_write. unfold available.
      rewrite Hw, table_after_read. reflexivity. }
    rewrite Htable. split.
    + rewrite stored_upsert. unfold loser_row at 1.
      rewrite has_key_row_of, String.eqb_refl, Z.eqb_refl. reflexivity.
    + intros Hdiff.
      rewrite stored_upsert. unfold loser_row at 1.
      rewrite has_key_row_of, String.eqb_refl.
      destruct (Z.eqb loser_id winner_id) eqn:Heq.
      * apply Z.eqb_eq in Heq. congruence.
      * cbn [andb].
        rewrite stored_upsert. unfold winner_row at 1.
        rewrite has_key_row_of, String.eqb_refl, Z.eqb_refl. reflexivity.
  - intros Hdown.
    assert (Hnew : new = (1516, 1484)).
    { unfold new, df, get_or_create_player_rating, rows_of_player, loaded.
      cbn [rows]. rewrite Hdown. cbn [filter].
      apply update_ratings_1500. }
    unfold winner_row, loser_row, df, current_matches, rows_of_player, loaded.
    cbn [rows]. rewrite Hdown, Hnew. split; reflexivity.
Qed.

Lemma record_matchup_counts_witness :
  available steady_world = true
  /\ stored_matches (table steady_world) "al_cy_young" 669373 = 5%Z
  /\ stored_matches (table steady_world) "al_cy_young" 676979 = 4%Z
  /\ requests (snd (record_matchup "al_cy_young" 669373 "Tarik Skubal"
                                   676979 "Garrett Crochet" steady_world))
     = [Select "al_cy_young";
        Upsert (row_of "al_cy_young" 669373 "Tarik Skubal"
                       (fst (update_ratings 1600 1550)) 6);
        Upsert (row_of "al_cy_young" 676979 "Garrett Crochet"
                       (snd (update_ratings 1600 1550)) 5)].
Proof.
  split; [reflexivity|]. split; [reflexivity|]. split; [reflexivity|].
  destruct (record_matchup_counts "al_cy_young" 669373 "Tarik Skubal"
              676979 "Garrett Crochet" steady_world)
    as [winner_row [loser_row [Hsent [_ [_ [_ [Hread _]]]]]]].
  destruct (Hread eq_refl) as [Hwin [Hlose _]].
  rewrite Hsent, Hwin, Hlose. reflexivity.
Defined.

(** C5 as stated fails after a failed read.  The two pitchers are stored
    with 5 and 4 matches; the read raises, the engine takes both for new,
    and the two upserts carry [matches_played = 1] and the ratings 1516 and
    1484 of two newcomers. *)
Lemma record_matchup_resets_counts :
  stored_matches (table read_outage) "al_cy_young" 669373 = 5%Z
  /\ stored_matches (table read_outage) "al_cy_young" 676979 = 4%Z
  /\ requests (snd (record_matchup "al_cy_young" 669373 "Tarik Skubal"
                                   676979 "Garrett Crochet" read_outage))
     = [Select "al_cy_young";
        Upsert (row_of "al_cy_young" 669373 "Tarik Skubal" 1516 1);
        Upsert (row_of "al_cy_young" 676979 "Garrett Crochet" 1484 1)].
Proof.
  split; [reflexivity|]. split; [reflexivity|].
  rewrite record_matchup_requests.
  change (get_or_create_player_rating (loaded "al_cy_young" read_outage)
            669373 "Tarik Skubal") with 1500.
  change (get_or_create_player_rating (loaded "al_cy_young" read_outage)
            676979 "Garrett Crochet") with 1500.
  rewrite update_ratings_1500. reflexivity.
Qed.

(** ** Failures of the store *)

(** C9, as the code has it: a failing access is not propagated.
    [load_ratings] and [update_player_rating] catch it, show one
    [st.error] message with the exception's text, leave the table as it is
    and return normally (an empty frame with the rating columns, and
    [None]).  So [record_matchup] never raises and is never aborted: it
    always sends the read and both upserts and returns the new ratings. *)
Theorem store_failure_not_propagated (category : string) (winner_id : Z)
    (winner_name : string) (loser_id : Z) (loser_name : string) (w : World) :
  (forall msg later, outages w = Some msg :: later ->
     load_ratings category w
     = (Ok {| columns := RATING_COLUMNS; rows := [] |},
        {| table := table w; outages := later;
           requests := requests w ++ [Select category];
           ui := ui w ++ [String.append "Error loading ratings: " msg] |})
     /\ forall id name rating matches,
          update_player_rating category id name rating matches w
          = (Ok tt,
             {| table := table w; outages := later;
                requests := requests w ++
                  [Upsert (row_of category id name rating matches)];
                ui := ui w ++
                  [String.append "Error updating rating: " msg] |}))
  /\ (let df := loaded category w in
      let new :=
        update_ratings
          (get_or_create_player_rating df winner_id winner_name)
          (get_or_create_player_rating df loser_id loser_name) in
      let run :=
        record_matchup category winner_id winner_name loser_id loser_name w in
      fst (load_ratings category w) = Ok df
      /\ fst run = Ok new
      /\ requests (snd run) = requests w ++
           [Select category;
            Upsert (row_of category winner_id winner_name (fst new)
                           (current_matches df winner_id + 1));
            Upsert (row_of category loser_id loser_name (snd new)
                           (current_matches df loser_id + 1))]).
Proof.
  split.
  - intros msg later Hout. split.
    + rewrite load_ratings_run.
      unfold loaded, after_read, available. rewrite Hout. reflexivity.
    + intros id name rating matches. rewrite update_player_rating_run.
      unfold after_write. rewrite Hout. reflexivity.
  - cbn zeta.
    rewrite record_matchup_requests, record_matchup_run, load_ratings_run.
    repeat split; reflexivity.
Qed.

Lemma store_failure_not_propagated_witness :
  outages read_outage = [Some "connection refused"%string]
  /\ fst (load_ratings "al_cy_young" read_outage)
     = Ok {| columns := RATING_COLUMNS; rows := [] |}.
Proof.
  split; [reflexivity|].
  destruct (proj1 (store_failure_not_propagated
                     "al_cy_young" 669373 "Tarik Skubal"
                     676979 "Garrett Crochet" read_outage)
                  "connection refused"%string [] eq_refl) as [Hload _].
  rewrite Hload. reflexivity.
Defined.

(** C9 as stated fails.  When the read fails, [record_matchup] returns
    normally with ratings computed from the defaults and overwrites both
    stored rows; when only the first write fails, it returns the same value
    as without any failure, the loser's row is committed and the winner's is
    not, and the message shown does not say which write failed. *)
Lemma store_failure_swallowed :
  (fst (record_matchup "al_cy_young" 669373 "Tarik Skubal"
                       676979 "Garrett Crochet" read_outage)
   = Ok (1516, 1484)
   /\ table (snd (record_matchup "al_cy_young" 669373 "Tarik Skubal"
                                 676979 "Garrett Crochet" read_outage))
      = [row_of "al_cy_young" 669373 "Tarik Skubal" 1516 1;
         row_of "al_cy_young" 676979 "Garrett Crochet" 1484 1])
  /\ (fst (record_matchup "al_cy_young" 669373 "Tarik Skubal"
                          676979 "Garrett Crochet" write_outage)
      = Ok (update_ratings 1600 1550)
      /\ table (snd (record_matchup "al_cy_young" 669373 "Tarik Skubal"
                                    676979 "Garrett Crochet" write_outage))
         = [row_of "al_cy_young" 669373 "Tarik Skubal" 1600 5;
            row_of "al_cy_young" 676979 "Garrett Crochet"
                   (snd (update_ratings 1600 1550)) 5]
      /\ ui (snd (record_matchup "al_cy_young" 669373 "Tarik Skubal"
                                 676979 "Garrett Crochet" write_outage))
         = ["Error updating rating: timed out"%string]).
Proof.
  split.
  - rewrite record_matchup_run. cbn [fst snd].
    change (get_or_create_player_rating (loaded "al_cy_young" read_outage)
              669373 "Tarik Skubal") with 1500.
    change (get_or_create_player_rating (loaded "al_cy_young" read_outage)
              676979 "Garrett Crochet") with 1500.
    rewrite update_ratings_1500. split; reflexivity.
  - rewrite record_matchup_run. cbn [fst snd].
    change (get_or_create_player_rating (loaded "al_cy_young" write_outage)
              669373 "Tarik Skubal") with 1600.
    change (get_or_create_player_rating (loaded "al_cy_young" write_outage)
              676979 "Garrett Crochet") with 1550.
    repeat split; reflexivity.
Qed.

(** ** The frame of [load_ratings] *)

(** C10: [load_ratings] always returns a frame whose columns are
    [player_id], [player_name], [elo_rating], [matches_played]: with the
    category's rows when the store has some, and with no row when it has
    none or when the read raises. *)
Theorem load_ratings_schema (category : string) (w : World) :
  exists df,
    fst (load_ratings category w) = Ok df
    /\ columns df
       = ["player_id"; "player_name"; "elo_rating"; "matches_played"]%string
    /\ (available w = true ->
        rows df = map rating_columns (select_eq category (table w)))
    /\ (available w = false \/ select_eq category (table w) = [] ->
        rows df = []).
Proof.
  exists (loaded category w). rewrite load_ratings_run.
  split; [reflexivity|]. split; [reflexivity|].
  unfold loaded. cbn [rows]. split.
  - intros ->. reflexivity.
  - intros [-> | Hnone]; [reflexivity|].
    rewrite Hnone. destruct (available w); reflexivity.
Qed.

(** ** The leaderboard *)

Section Sorting.

Lemma Rltb_false (x y : R) : Rltb x y = false -> y <= x.
Proof.
  unfold Rltb. destruct (Rlt_dec x y) as [Hlt | Hge]; [discriminate|].
  intros _. lra.
Qed.

Lemma Rltb_true (x y : R) : Rltb x y = true -> x < y.
Proof.
  unfold Rltb. destruct (Rlt_dec x y) as [Hlt | Hge]; [auto | discriminate].
Qed.

Lemma desc_trans (a b c : Rating) : desc a b -> desc b c -> desc a c.
Proof. unfold desc. lra. Qed.

Lemma insert_desc_perm (r : Rating) (l : list Rating) :
  Permutation (insert_desc r l) (r :: l).
Proof.
  induction l as [|h t IH]; cbn [insert_desc].
  - apply Permutation_refl.
  - destruct (Rltb (elo_rating r) (elo_rating h)).
    + eapply perm_trans; [apply perm_skip, IH | apply perm_swap].
    + apply Permutation_refl.
Qed.

Lemma insert_desc_head (r x : Rating) (l : list Rating) :
  desc x r -> HdRel desc x l -> HdRel desc x (insert_desc r l).
Proof.
  intros Hxr Hhd. destruct l as [|h t]; cbn [insert_desc].
  - constructor. exact Hxr.
  - destruct (Rltb (elo_rating r) (elo_rating h));
      constructor; [inversion Hhd; assumption | exact Hxr].
Qed.

Lemma insert_desc_sorted (r : Rating) (l : list Rating) :
  Sorted desc l -> Sorted desc (insert_desc r l).
Proof.
  induction l as [|h t IH]; cbn [insert_desc]; intros Hs.
  - repeat constructor.
  - destruct (Rltb (elo_rating r) (elo_rating h)) eqn:Hcmp.
    + inversion Hs as [|? ? Hst Hhd]; subst.
      constructor; [apply IH, Hst|].
      apply insert_desc_head; [|exact Hhd].
      apply Rltb_true in Hcmp. unfold desc. lra.
    + constructor; [exact Hs|]. constructor.
      apply Rltb_false in Hcmp. exact Hcmp.
Qed.

Lemma sort_values_perm (l : list Rating) : Permutation (sort_values l) l.
Proof.
  induction l as [|r l IH]; cbn [sort_values fold_right].
  - constructor.
  - eapply perm_trans; [apply insert_desc_perm | apply perm_skip, IH].
Qed.

Lemma sort_values_sorted (l : list Rating) :
  StronglySorted desc (sort_values l).
Proof.
  apply Sorted_StronglySorted; [exact desc_trans|].
  induction l as [|r l IH]; cbn [sort_values fold_right].
  - constructor.
  - apply insert_desc_sorted, IH.
Qed.

Lemma firstn_all_desc (x : Rating) (n : nat) (l : list Rating) :
  Forall (desc x) l -> Forall (desc x) (firstn n l).
Proof.
  intros Hall. revert n.
  induction Hall as [|h t Hh _ IH]; intros [|n]; cbn [firstn];
    constructor; auto.
Qed.

Lemma firstn_sorted (n : nat) (l : list Rating) :
  StronglySorted desc l -> StronglySorted desc (firstn n l).
Proof.
  intros Hs. revert n.
  induction Hs as [|h t _ IH Hall]; intros [|n]; cbn [firstn];
    constructor; auto using firstn_all_desc.
Qed.

End Sorting.

Lemma head_sorted (n : Z) (l : list Rating) :
  StronglySorted desc l -> StronglySorted desc (head n l).
Proof.
  intros Hs. unfold head. destruct (0 <=? n)%Z; apply firstn_sorted, Hs.
Qed.

Lemma head_nonneg (n : Z) (l : list Rating) :
  (0 <= n)%Z -> head n l = firstn (Z.to_nat n) l.
Proof.
  intros Hn. unfold head.
  destruct (Z.leb_spec 0 n) as [_ | Hneg]; [reflexivity | lia].
Qed.

(** A negative [top_n] drops rows from the end instead. *)
Lemma head_negative (n : Z) (l : list Rating) :
  (n < 0)%Z -> head n l = firstn (List.length l - Z.to_nat (- n)) l.
Proof.
  intros Hn. unfold head.
  destruct (Z.leb_spec 0 n) as [Hpos | _]; [lia | reflexivity].
Qed.

Lemma get_leaderboard_run (category : string) (top_n : option Z) (w : World) :
  get_leaderboard category top_n w
  = (Ok {| columns := RATING_COLUMNS;
           rows := match top_n with
                   | Some n => head n (sort_values (rows (loaded category w)))
                   | None => sort_values (rows (loaded category w))
                   end |},
     after_read category w).
Proof.
  unfold get_leaderboard. unfold bind at 1. rewrite load_ratings_run.
  destruct (rows (loaded category w)) as [|r rest] eqn:Hrows.
  - unfold ret, loaded in *. cbn [rows columns] in *. rewrite Hrows.
    destruct top_n as [n|]; cbn [sort_values fold_right]; [|reflexivity].
    unfold head. rewrite !firstn_nil. destruct (0 <=? n)%Z; reflexivity.
  - destruct top_n; reflexivity.
Qed.

Lemma Rltb_irrefl (x : R) : Rltb x x = false.
Proof.
  unfold Rltb. destruct (Rlt_dec x x) as [Hlt | _]; [lra | reflexivity].
Qed.

(** Rows of equal rating keep the order of the frame. *)
Lemma sort_values_keeps_ties (a b : Rating) :
  elo_rating a = elo_rating b -> sort_values [a; b] = [a; b].
Proof.
  intros Htie. cbn [sort_values fold_right insert_desc].
  rewrite Htie, Rltb_irrefl. reflexivity.
Qed.

(** C6, as the code has it.  [get_leaderboard] never raises.  When the
    read of the store succeeds it returns the category's records in
    descending order of rating, cut to the first [top_n] rows when a
    [top_n >= 0] is given; the statement leaves the order among equal
    ratings open.  When the category has no record, or when the read
    fails, it returns no row. *)
Theorem get_leaderboard_sorted (category : string) (top_n : option Z)
    (w : World) :
  exists df,
    fst (get_leaderboard category top_n w) = Ok df
    /\ StronglySorted desc (rows df)
    /\ (select_eq category (table w) = [] -> rows df = [])
    /\ (available w = false -> rows df = [])
    /\ (available w = true ->
        exists ranking,
          Permutation ranking
            (map rating_columns (select_eq category (table w)))
          /\ StronglySorted desc ranking
          /\ match top_n with
             | None => rows df = ranking
             | Some n => (0 <= n)%Z -> rows df = firstn (Z.to_nat n) ranking
             end).
Proof.
  rewrite get_leaderboard_run. eexists. split; [reflexivity|].
  cbn [rows]. split; [|split; [|split]].
  - destruct top_n; [apply head_sorted|]; apply sort_values_sorted.
  - intros Hnone. unfold loaded. cbn [rows]. rewrite Hnone.
    destruct (available w); cbn [map sort_values fold_right];
      destruct top_n as [n|]; try reflexivity;
      unfold head; rewrite !firstn_nil; destruct (0 <=? n)%Z; reflexivity.
  - intros Hdown. unfold loaded. cbn [rows]. rewrite Hdown.
    cbn [sort_values fold_right].
    destruct top_n as [n|]; [|reflexivity].
    unfold head; rewrite !firstn_nil; destruct (0 <=? n)%Z; reflexivity.
  - intros Hav. unfold loaded. cbn [rows]. rewrite Hav.
    exists (sort_values (map rating_columns (select_eq category (table w)))).
    split; [apply sort_values_perm|]. split; [apply sort_values_sorted|].
    destruct top_n as [n|]; [|reflexivity].
    intros Hn. apply head_nonneg, Hn.
Qed.

Lemma get_leaderboard_sorted_witness :
  available steady_world = true
  /\ exists df ranking,
       fst (get_leaderboard "al_cy_young" (Some 1%Z) steady_world) = Ok df
       /\ Permutation ranking (map rating_columns two_rated)
       /\ StronglySorted desc ranking
       /\ rows df = firstn 1 ranking.
Proof.
  split; [reflexivity|].
  destruct (get_leaderboard_sorted "al_cy_young" (Some 1%Z) steady_world)
    as [df [Hrun [_ [_ [_ Hrank]]]]].
  destruct (Hrank eq_refl) as [ranking [Hperm [Hsorted Hrows]]].
  exists df, ranking. split; [exact Hrun|]. split; [exact Hperm|].
  split; [exact Hsorted|]. apply Hrows. lia.
Defined.

(** C6 as stated fails in two ways.  After a failed read the leaderboard
    of a category that has two records is empty; and a negative [top_n]
    does not give the first [top_n] rows: with [top_n = -1] on these two
    records one row is returned. *)
Lemma get_leaderboard_after_failed_read :
  List.length (select_eq "al_cy_young" (table read_outage)) = 2%nat
  /\ fst (get_leaderboard "al_cy_young" None read_outage)
     = Ok {| columns := RATING_COLUMNS; rows := [] |}
  /\ ui (snd (get_leaderboard "al_cy_young" None read_outage))
     = ["Error loading ratings: connection refused"%string]
  /\ exists df,
       fst (get_leaderboard "al_cy_young" (Some (-1)%Z) steady_world) = Ok df
       /\ List.length (rows df) = 1%nat.
Proof.
  split; [reflexivity|]. split; [reflexivity|]. split; [reflexivity|].
  rewrite get_leaderboard_run. eexists. split; [reflexivity|].
  cbn [rows]. rewrite head_negative by lia.
  rewrite length_firstn, (Permutation_length (sort_values_perm _)).
  reflexivity.
Qed.

(** ** The matchup selector *)

Lemma sample2_pair (a b : Player) (d : nat * nat) :
  sample2 [a; b] d = Ok (a, b) \/ sample2 [a; b] d = Ok (b, a).
Proof.
  unfold sample2. cbn [List.length Nat.sub].
  rewrite Nat.mod_1_r.
  pose proof (Nat.mod_upper_bound (fst d) 2 ltac:(discriminate)) as Hi.
  destruct (fst d mod 2)%nat as [|[|i]]; [left | right | lia]; reflexivity.
Qed.

(** Either order of the two rows can be drawn. *)
Lemma sample2_both_orders (a b : Player) :
  sample2 [a; b] (0, 0)%nat = Ok (a, b)
  /\ sample2 [a; b] (1, 0)%nat = Ok (b, a).
Proof. split; reflexivity. Qed.

(** The rows drawn sit at two different positions of the pool. *)
Lemma sample2_positions (df : list Player) (d : nat * nat) :
  (2 <= List.length df)%nat ->
  exists i j first,
    (i < List.length df)%nat /\ (j < List.length df)%nat /\ i <> j
    /\ sample2 df d = Ok (nth i df first, nth j df first).
Proof.
  intros Hlen. destruct df as [|first [|second rest]]; cbn in Hlen; try lia.
  unfold sample2.
  set (n := List.length (first :: second :: rest)).
  assert (Hn : (2 <= n)%nat) by (subst n; cbn; lia).
  pose proof (Nat.mod_upper_bound (fst d) n ltac:(lia)) as Hi.
  pose proof (Nat.mod_upper_bound (snd d) (n - 1) ltac:(lia)) as Hj.
  exists (fst d mod n)%nat.
  destruct (Nat.ltb_spec (snd d mod (n - 1)) (fst d mod n)) as [Hlt | Hge].
  - exists (snd d mod (n - 1))%nat, first. repeat split; lia.
  - exists (S (snd d mod (n - 1))), first. repeat split; lia.
Qed.

(** With a duplicated identity every attempt is rejected and the loop ends
    on the [ValueError]. *)
Lemma attempt_loop_duplicate (a b : Player) (rng : nat -> nat * nat)
    (attempts : list nat) :
  xMLBAMID a = xMLBAMID b ->
  attempt_loop [a; b] rng attempts
  = Raise (ValueError
      "Failed to select two different players after 10 attempts").
Proof.
  intros Hsame. induction attempts as [|attempt rest IH];
    cbn [attempt_loop]; [reflexivity|].
  destruct (sample2_pair a b (rng attempt)) as [-> | ->];
    rewrite Hsame, Z.eqb_refl; cbn [negb]; exact IH.
Qed.

(** C7: on a pool of exactly two competitors with different identities the
    selector returns these two, in one order or the other; it does not raise
    the retries-exhausted [ValueError]. *)
Theorem select_pair_of_two (a b : Player) (rng : nat -> nat * nat) :
  xMLBAMID a <> xMLBAMID b ->
  select_random_matchup [a; b] rng = Ok (Some a, Some b)
  \/ select_random_matchup [a; b] rng = Ok (Some b, Some a).
Proof.
  intros Hdiff.
  unfold select_random_matchup, max_attempts.
  cbn [List.length Nat.ltb Nat.leb seq attempt_loop].
  destruct (sample2_pair a b (rng 0%nat)) as [-> | ->]; [left | right].
  - apply Z.eqb_neq in Hdiff. rewrite Hdiff. reflexivity.
  - apply not_eq_sym, Z.eqb_neq in Hdiff. rewrite Hdiff. reflexivity.
Qed.

Lemma select_pair_of_two_witness :
  xMLBAMID {| xMLBAMID := 669373; nameFirstLast := "Tarik Skubal" |}
  <> xMLBAMID {| xMLBAMID := 676979; nameFirstLast := "Garrett Crochet" |}
  /\ (select_random_matchup
        [{| xMLBAMID := 669373; nameFirstLast := "Tarik Skubal" |};
         {| xMLBAMID := 676979; nameFirstLast := "Garrett Crochet" |}]
        (fun attempt => (S attempt, attempt))
      = Ok (Some {| xMLBAMID := 669373; nameFirstLast := "Tarik Skubal" |},
            Some {| xMLBAMID := 676979; nameFirstLast := "Garrett Crochet" |})
      \/ select_random_matchup
           [{| xMLBAMID := 669373; nameFirstLast := "Tarik Skubal" |};
            {| xMLBAMID := 676979; nameFirstLast := "Garrett Crochet" |}]
           (fun attempt => (S attempt, attempt))
         = Ok (Some {| xMLBAMID := 676979; nameFirstLast := "Garrett Crochet" |},
               Some {| xMLBAMID := 669373;
                       nameFirstLast := "Tarik Skubal" |})).
Proof.
  assert (Hdiff :
    xMLBAMID {| xMLBAMID := 669373; nameFirstLast := "Tarik Skubal" |}
    <> xMLBAMID {| xMLBAMID := 676979; nameFirstLast := "Garrett Crochet" |})
    by (cbn; lia).
  split; [exact Hdiff|].
  apply (select_pair_of_two _ _ _ Hdiff).
Defined.

(** C8: on a pool of fewer than two competitors the selector draws nothing
    and hands [(None, None)] to its caller, the sign that there are not
    enough candidates. *)
Theorem select_needs_two (df : list Player) (rng : nat -> nat * nat) :
  (List.length df < 2)%nat ->
  select_random_matchup df rng = Ok (None, None).
Proof.
  intros Hlen. unfold select_random_matchup.
  apply Nat.ltb_lt in Hlen. rewrite Hlen. reflexivity.
Qed.

Lemma select_needs_two_witness :
  (List.length [{| xMLBAMID := 669373; nameFirstLast := "Tarik Skubal" |}]
   < 2)%nat
  /\ select_random_matchup
       [{| xMLBAMID := 669373; nameFirstLast := "Tarik Skubal" |}]
       (fun attempt => (attempt, attempt))
     = Ok (None, None).
Proof.
  split; [cbn; lia|].
  apply select_needs_two. cbn; lia.
Defined.

(** ** What a matchup does to the table *)

Section TableEffects.

Lemma has_key_iff (category : string) (id : Z) (r : StoreRow) :
  has_key category id r = true <-> key_of r = (category, id).
Proof.
  unfold has_key, key_of. rewrite andb_true_iff, String.eqb_eq, Z.eqb_eq.
  split; [intros [-> ->]; reflexivity | intros H; inversion H; auto].
Qed.

Lemma upsert_keys (data : StoreRow) (t : list StoreRow) (k : string * Z) :
  In k (map key_of (upsert data t)) ->
  k = key_of data \/ In k (map key_of t).
Proof.
  induction t as [|r t IH]; cbn [upsert map In].
  - intros [<- | []]. left. reflexivity.
  - destruct (has_key _ _ r) eqn:Hconf; cbn [map In].
    + intros [<- | Hin]; [left; reflexivity | right; right; exact Hin].
    + intros [<- | Hin]; [right; left; reflexivity|].
      destruct (IH Hin) as [-> | Hin']; [left | right; right]; auto.
Qed.

Lemma upsert_unique (data : StoreRow) (t : list StoreRow) :
  unique_keys t -> unique_keys (upsert data t).
Proof.
  unfold unique_keys.
  induction t as [|r t IH]; cbn [upsert map]; intros Hnd.
  - constructor; [intros [] | constructor].
  - inversion Hnd as [|? ? Hnotin Hnd']; subst.
    destruct (has_key _ _ r) eqn:Hconf; cbn [map].
    + apply has_key_iff in Hconf.
      change (key_of r = key_of data) in Hconf.
      rewrite <- Hconf. constructor; assumption.
    + constructor; [|apply IH, Hnd'].
      intros Hin. apply upsert_keys in Hin as [Heq | Hin]; [|auto].
      assert (has_key (award_category data)
                (player_id (rating_columns data)) r = true)
        by (apply has_key_iff; exact Heq).
      congruence.
Qed.

Lemma upsert_other_category (data : StoreRow) (t : list StoreRow)
    (category : string) :
  award_category data <> category ->
  select_eq category (upsert data t) = select_eq category t.
Proof.
  intros Hother. apply String.eqb_neq in Hother.
  unfold select_eq.
  induction t as [|r t IH]; cbn [upsert filter].
  - rewrite Hother. reflexivity.
  - destruct (has_key _ _ r) eqn:Hconf; cbn [filter].
    + rewrite Hother.
      apply andb_true_iff in Hconf as [Hcat _].
      apply String.eqb_eq in Hcat. rewrite Hcat, Hother. reflexivity.
    + rewrite IH. reflexivity.
Qed.

(** A property of tables that every upsert of the two rows keeps is kept
    by [record_matchup], whichever accesses fail. *)
Lemma record_matchup_keeps (P : list StoreRow -> Prop) (category : string)
    (winner_id : Z) (winner_name : string) (loser_id : Z)
    (loser_name : string) (w : World) :
  (forall rating matches t,
     P t -> P (upsert (row_of category winner_id winner_name rating matches) t)) ->
  (forall rating matches t,
     P t -> P (upsert (row_of category loser_id loser_name rating matches) t)) ->
  P (table w) ->
  P (table (snd (record_matchup category winner_id winner_name
                                loser_id loser_name w))).
Proof.
  intros Hwin Hlose HP.
  rewrite record_matchup_run. cbn [snd].
  rewrite table_after_write.
  assert (P (table (after_write
                      (row_of category winner_id winner_name
                         (fst (update_ratings
                            (get_or_create_player_rating
                               (loaded category w) winner_id winner_name)
                            (get_or_create_player_rating
                               (loaded category w) loser_id loser_name)))
                         (current_matches (loaded category w) winner_id + 1))
                      (after_read category w)))) as HP1.
  { rewrite table_after_write, table_after_read.
    destruct (available _); auto. }
  destruct (available _); auto.
Qed.

(** With the three accesses going through, the table has received the two
    rows computed from the stored values. *)
Lemma record_matchup_table (category : string) (winner_id : Z)
    (winner_name : string) (loser_id : Z) (loser_name : string) (w : World) :
  calm 3 (outages w) = true ->
  let t := table w in
  let new :=
    update_ratings (stored_rating t category winner_id)
                   (stored_rating t category loser_id) in
  table (snd (record_matchup category winner_id winner_name
                             loser_id loser_name w))
  = upsert (row_of category loser_id loser_name (snd new)
                   (stored_matches t category loser_id + 1))
      (upsert (row_of category winner_id winner_name (fst new)
                      (stored_matches t category winner_id + 1)) t).
Proof.
  intros Hcalm. cbn zeta.
  apply calm_step in Hcalm as [Hread Hcalm].
  apply calm_step in Hcalm as [Hw Hcalm].
  apply calm_step in Hcalm as [Hl _].
  rewrite <- (outages_after_read category w) in Hw, Hl.
  rewrite record_matchup_run. cbn [snd].
  rewrite !read_rating_available, !read_matches_available by exact Hread.
  rewrite table_after_write. unfold available.
  rewrite outages_after_write, Hl.
  rewrite table_after_write. unfold available.
  rewrite Hw, table_after_read. reflexivity.
Qed.

Lemma outages_after_matchup (category : string) (winner_id : Z)
    (winner_name : string) (loser_id : Z) (loser_name : string) (w : World) :
  outages (snd (record_matchup category winner_id winner_name
                               loser_id loser_name w))
  = tl (tl (tl (outages w))).
Proof.
  rewrite record_matchup_run. cbn [snd].
  rewrite !outages_after_write, outages_after_read. reflexivity.
Qed.

Lemma stored_in_category (t : list StoreRow) (category : string) (id : Z)
    (r : StoreRow) :
  stored t category id = Some r -> In r (select_eq category t).
Proof.
  unfold stored, select_eq. intros Hfind.
  apply find_some in Hfind as [Hin Hkey].
  apply filter_In. split; [exact Hin|].
  apply andb_true_iff in Hkey as [Hcat _]. exact Hcat.
Qed.

End TableEffects.

(** X6: a rating written by [update_player_rating] is the one read back:
    when the write and the following read both go through, the frame of
    [load_ratings] gives that player the rating and the match count that
    were written. *)
Theorem update_then_read (category : string) (id : Z) (name reader : string)
    (rating : R) (matches : Z) (w : World) :
  calm 2 (outages w) = true ->
  let w1 := snd (update_player_rating category id name rating matches w) in
  let df := loaded category w1 in
  fst (load_ratings category w1) = Ok df
  /\ get_or_create_player_rating df id reader = rating
  /\ current_matches df id = matches.
Proof.
  intros Hcalm. cbn zeta.
  apply calm_step in Hcalm as [Hwrite Hcalm].
  apply calm_step in Hcalm as [Hread _].
  rewrite update_player_rating_run, load_ratings_run. cbn [fst snd].
  set (data := row_of category id name rating matches).
  assert (Hav : available (after_write data w) = true)
    by (unfold available; rewrite outages_after_write; exact Hread).
  assert (Hstored : stored (table (after_write data w)) category id = Some data).
  { rewrite table_after_write. unfold available. rewrite Hwrite.
    rewrite stored_upsert. unfold data.
    rewrite has_key_row_of, String.eqb_refl, Z.eqb_refl. reflexivity. }
  split; [reflexivity|]. split.
  - rewrite read_rating_available by exact Hav.
    unfold stored_rating. rewrite Hstored. reflexivity.
  - rewrite read_matches_available by exact Hav.
    unfold stored_matches. rewrite Hstored. reflexivity.
Qed.

Lemma update_then_read_witness :
  calm 2 (outages steady_world) = true
  /\ get_or_create_player_rating
       (loaded "al_cy_young"
          (snd (update_player_rating "al_cy_young" 669373 "Tarik Skubal"
                  1616 6 steady_world)))
       669373 "Tarik Skubal"
     = 1616.
Proof.
  split; [reflexivity|].
  apply (update_then_read "al_cy_young" 669373 "Tarik Skubal" "Tarik Skubal"
           1616 6 steady_world).
  reflexivity.
Defined.

(** X7: [record_matchup] keeps the table unique on
    [(award_category, player_id)], whichever of its accesses fail. *)
Theorem record_matchup_unique_keys (category : string) (winner_id : Z)
    (winner_name : string) (loser_id : Z) (loser_name : string) (w : World) :
  unique_keys (table w) ->
  unique_keys (table (snd (record_matchup category winner_id winner_name
                                          loser_id loser_name w))).
Proof.
  apply record_matchup_keeps; intros; apply upsert_unique; assumption.
Qed.

Lemma record_matchup_unique_keys_witness :
  unique_keys (table steady_world)
  /\ unique_keys
       (table (snd (record_matchup "al_cy_young" 669373 "Tarik Skubal"
                                   676979 "Garrett Crochet" steady_world))).
Proof.
  assert (Hunique : unique_keys (table steady_world)).
  { unfold unique_keys. cbn.
    repeat constructor; cbn; [intros [H | []]; inversion H | intros []]. }
  split; [exact Hunique|].
  apply (record_matchup_unique_keys "al_cy_young" 669373 "Tarik Skubal"
           676979 "Garrett Crochet" steady_world Hunique).
Defined.

(** X8: [record_matchup] never touches the row of anyone else: the row
    stored under any key other than the winner's and the loser's is the same
    before and after, whichever accesses fail. *)
Theorem record_matchup_frame (category : string) (winner_id : Z)
    (winner_name : string) (loser_id : Z) (loser_name : string) (w : World)
    (other_category : string) (other_id : Z) :
  (other_category, other_id) <> (category, winner_id) ->
  (other_category, other_id) <> (category, loser_id) ->
  stored (table (snd (record_matchup category winner_id winner_name
                                     loser_id loser_name w)))
         other_category other_id
  = stored (table w) other_category other_id.
Proof.
  intros Hwin Hlose.
  apply (record_matchup_keeps
           (fun t => stored t other_category other_id
                     = stored (table w) other_category other_id));
    [| |reflexivity]; intros rating matches t Ht;
    rewrite stored_upsert;
    (destruct (has_key _ _ (row_of _ _ _ _ _)) eqn:Hkey; [|exact Ht]);
    apply has_key_iff in Hkey; unfold key_of, row_of in Hkey;
    cbn in Hkey; symmetry in Hkey; contradiction.
Qed.

Lemma record_matchup_frame_witness :
  ("al_cy_young"%string, 676979%Z) <> ("al_cy_young"%string, 669373%Z)
  /\ stored (table (snd (record_matchup "al_cy_young" 669373 "Tarik Skubal"
                                        669373 "Tarik Skubal" steady_world)))
            "al_cy_young" 676979
     = stored (table steady_world) "al_cy_young" 676979.
Proof.
  assert (Hother :
    ("al_cy_young"%string, 676979%Z) <> ("al_cy_young"%string, 669373%Z))
    by (intros H; inversion H).
  split; [exact Hother|].
  apply (record_matchup_frame "al_cy_young" 669373 "Tarik Skubal"
           669373 "Tarik Skubal" steady_world "al_cy_young" 676979
           Hother Hother).
Defined.

(** X9: [record_matchup] never deletes a row: a key that has a row before
    has one after, whichever accesses fail. *)
Theorem record_matchup_never_deletes (category : string) (winner_id : Z)
    (winner_name : string) (loser_id : Z) (loser_name : string) (w : World)
    (some_category : string) (some_id : Z) :
  stored (table w) some_category some_id <> None ->
  stored (table (snd (record_matchup category winner_id winner_name
                                     loser_id loser_name w)))
         some_category some_id
  <> None.
Proof.
  intros Hrow.
  apply (record_matchup_keeps
           (fun t => stored t some_category some_id <> None));
    [| |exact Hrow]; intros rating matches t Ht; rewrite stored_upsert;
    (destruct (has_key _ _ (row_of _ _ _ _ _)); [discriminate | exact Ht]).
Qed.

Lemma record_matchup_never_deletes_witness :
  stored (table read_outage) "al_cy_young" 669373 <> None
  /\ stored (table (snd (record_matchup "al_cy_young" 669373 "Tarik Skubal"
                                        676979 "Garrett Crochet" read_outage)))
            "al_cy_young" 669373
     <> None.
Proof.
  assert (Hrow : stored (table read_outage) "al_cy_young" 669373 <> None)
    by (cbn; discriminate).
  split; [exact Hrow|].
  apply (record_matchup_never_deletes "al_cy_young" 669373 "Tarik Skubal"
           676979 "Garrett Crochet" read_outage "al_cy_young" 669373 Hrow).
Defined.

(** X10: the categories are independent: a matchup recorded in one category
    leaves the rows of every other category as they were, in number, content
    and order. *)
Theorem record_matchup_category_isolation (category : string)
    (winner_id : Z) (winner_name : string) (loser_id : Z)
    (loser_name : string) (w : World) (other_category : string) :
  other_category <> category ->
  select_eq other_category
    (table (snd (record_matchup category winner_id winner_name
                                loser_id loser_name w)))
  = select_eq other_category (table w).
Proof.
  intros Hother.
  apply (record_matchup_keeps
           (fun t => select_eq other_category t
                     = select_eq other_category (table w)));
    [| |reflexivity]; intros rating matches t Ht;
    (rewrite upsert_other_category; [exact Ht | cbn; congruence]).
Qed.

Lemma record_matchup_category_isolation_witness :
  "nl_cy_young"%string <> "al_cy_young"%string
  /\ select_eq "nl_cy_young"
       (table (snd (record_matchup "al_cy_young" 669373 "Tarik Skubal"
                                   676979 "Garrett Crochet" steady_world)))
     = select_eq "nl_cy_young" (table steady_world).
Proof.
  assert (Hother : "nl_cy_young"%string <> "al_cy_young"%string)
    by discriminate.
  split; [exact Hother|].
  apply (record_matchup_category_isolation "al_cy_young" 669373
           "Tarik Skubal" 676979 "Garrett Crochet" steady_world
           "nl_cy_young" Hother).
Defined.




(** ** More on the leaderboard *)

(** X13: [get_leaderboard] only reads: it sends the one select of the
    category and leaves the table as it is, whether the read succeeds or
    not. *)
Theorem get_leaderboard_read_only (category : string) (top_n : option Z)
    (w : World) :
  table (snd (get_leaderboard category top_n w)) = table w
  /\ requests (snd (get_leaderboard category top_n w))
     = requests w ++ [Select category].
Proof.
  rewrite get_leaderboard_run. cbn [snd].
  split; [apply table_after_read | apply requests_after_read].
Qed.

Lemma sort_values_length (l : list Rating) :
  List.length (sort_values l) = List.length l.
Proof. apply Permutation_length, sort_values_perm. Qed.

(** X14: with the read succeeding, the leaderboard has one row per record
    of the category when [top_n] is not given, and [min top_n records] rows
    for a [top_n >= 0]. *)
Theorem get_leaderboard_length (category : string) (top_n : option Z)
    (w : World) :
  available w = true ->
  exists df,
    fst (get_leaderboard category top_n w) = Ok df
    /\ match top_n with
       | None =>
           List.length (rows df)
           = List.length (select_eq category (table w))
       | Some n =>
           (0 <= n)%Z ->
           List.length (rows df)
           = Nat.min (Z.to_nat n)
                     (List.length (select_eq category (table w)))
       end.
Proof.
  intros Hav. rewrite get_leaderboard_run. eexists.
  split; [reflexivity|]. cbn [rows]. unfold loaded. cbn [rows].
  rewrite Hav. destruct top_n as [n|].
  - intros Hn. rewrite head_nonneg by exact Hn.
    rewrite length_firstn, sort_values_length, length_map. reflexivity.
  - rewrite sort_values_length, length_map. reflexivity.
Qed.

Lemma get_leaderboard_length_witness :
  available steady_world = true
  /\ exists df,
       fst (get_leaderboard "al_cy_young" (Some 1%Z) steady_world) = Ok df
       /\ List.length (rows df) = 1%nat.
Proof.
  split; [reflexivity|].
  destruct (get_leaderboard_length "al_cy_young" (Some 1%Z) steady_world
              eq_refl) as [df [Hrun Hlen]].
  exists df. split; [exact Hrun|].
  rewrite Hlen by lia. reflexivity.
Defined.

(** X15: with the read succeeding and at least one record in the category,
    the first row of the leaderboard (for no [top_n] or a [top_n >= 1]) is
    a record of the category and no record of the category has a higher
    rating. *)
Theorem get_leaderboard_top (category : string) (top_n : option Z)
    (w : World) :
  available w = true ->
  select_eq category (table w) <> [] ->
  match top_n with Some n => (1 <= n)%Z | None => True end ->
  exists df top rest,
    fst (get_leaderboard category top_n w) = Ok df
    /\ rows df = top :: rest
    /\ In top (map rating_columns (select_eq category (table w)))
    /\ forall r,
         In r (map rating_columns (select_eq category (table w))) ->
         elo_rating r <= elo_rating top.
Proof.
  intros Hav Hsome Hn. rewrite get_leaderboard_run. cbn [fst].
  unfold loaded. cbn [rows]. rewrite Hav.
  set (records := map rating_columns (select_eq category (table w))).
  pose proof (sort_values_perm records) as Hperm.
  pose proof (sort_values_sorted records) as Hsorted.
  destruct (sort_values records) as [|top ranking] eqn:Hrank.
  - apply Permutation_nil in Hperm. subst records.
    apply map_eq_nil in Hperm. contradiction.
  - assert (Htop : forall r, In r records -> elo_rating r <= elo_rating top).
    { intros r Hin.
      apply (Permutation_in _ (Permutation_sym Hperm)) in Hin.
      destruct Hin as [<- | Hin]; [lra|].
      inversion Hsorted as [|? ? _ Hall]; subst.
      eapply Forall_forall in Hall; [exact Hall | exact Hin]. }
    assert (Hin : In top records)
      by (apply (Permutation_in _ Hperm); left; reflexivity).
    destruct top_n as [n|].
    + exists {| columns := RATING_COLUMNS; rows := head n (top :: ranking) |},
        top, (firstn (Z.to_nat n - 1) ranking).
      split; [reflexivity|]. split; [|split; assumption].
      cbn [rows]. rewrite head_nonneg by lia.
      replace (Z.to_nat n) with (S (Z.to_nat n - 1)) at 1 by lia.
      reflexivity.
    + exists {| columns := RATING_COLUMNS; rows := top :: ranking |},
        top, ranking.
      repeat split; assumption.
Qed.

Lemma get_leaderboard_top_witness :
  available steady_world = true
  /\ select_eq "al_cy_young" (table steady_world) <> []
  /\ exists df top rest,
       fst (get_leaderboard "al_cy_young" None steady_world) = Ok df
       /\ rows df = top :: rest
       /\ In top (map rating_columns
                      (select_eq "al_cy_young" (table steady_world))).
Proof.
  assert (Hsome : select_eq "al_cy_young" (table steady_world) <> [])
    by (cbn; discriminate).
  split; [reflexivity|]. split; [exact Hsome|].
  destruct (get_leaderboard_top "al_cy_young" None steady_world
              eq_refl Hsome I) as [df [top [rest [Hrun [Hrows [Hin _]]]]]].
  exists df, top, rest. repeat split; assumption.
Defined.

(** X16: a negative [top_n] is not rejected: when the read succeeds, the
    leaderboard then keeps the first (number of records minus [-top_n])
    rows of a descending ranking of the category's records, that is, it
    drops [-top_n] rows of lowest rating instead of keeping the first
    ones.  The statement leaves the order among equal ratings open. *)
Theorem get_leaderboard_negative_top_n (category : string) (n : Z)
    (w : World) :
  available w = true ->
  (n < 0)%Z ->
  exists df ranking,
    fst (get_leaderboard category (Some n) w) = Ok df
    /\ Permutation ranking
         (map rating_columns (select_eq category (table w)))
    /\ StronglySorted desc ranking
    /\ rows df
       = firstn (List.length (select_eq category (table w)) - Z.to_nat (- n))
                ranking.
Proof.
  intros Hav Hn. rewrite get_leaderboard_run.
  eexists.
  exists (sort_values (map rating_columns (select_eq category (table w)))).
  split; [reflexivity|].
  split; [apply sort_values_perm|]. split; [apply sort_values_sorted|].
  cbn [rows]. unfold loaded. cbn [rows].
  rewrite Hav, head_negative by exact Hn.
  rewrite sort_values_length, length_map. reflexivity.
Qed.

Lemma get_leaderboard_negative_top_n_witness :
  available steady_world = true
  /\ (-1 < 0)%Z
  /\ exists df,
       fst (get_leaderboard "al_cy_young" (Some (-1)%Z) steady_world) = Ok df
       /\ List.length (rows df) = 1%nat.
Proof.
  split; [reflexivity|]. split; [lia|].
  destruct (get_leaderboard_negative_top_n "al_cy_young" (-1) steady_world
              eq_refl ltac:(lia)) as [df [ranking [Hrun [Hperm [_ Hrows]]]]].
  exists df. split; [exact Hrun|].
  rewrite Hrows, length_firstn, (Permutation_length Hperm).
  reflexivity.
Defined.

(** X17: a recorded vote shows on the leaderboard: when the three accesses
    of [record_matchup] and the read of [get_leaderboard] go through and
    the two ids differ, the full leaderboard of the category read next
    contains the winner's and the loser's rows with their new ratings and
    match counts. *)
Theorem vote_then_leaderboard (category : string) (winner_id : Z)
    (winner_name : string) (loser_id : Z) (loser_name : string) (w : World) :
  calm 4 (outages w) = true ->
  winner_id <> loser_id ->
  let t := table w in
  let new :=
    update_ratings (stored_rating t category winner_id)
                   (stored_rating t category loser_id) in
  let w' :=
    snd (record_matchup category winner_id winner_name
                        loser_id loser_name w) in
  exists df,
    fst (get_leaderboard category None w') = Ok df
    /\ In {| player_id := winner_id; player_name := winner_name;
             elo_rating := fst new;
             matches_played := stored_matches t category winner_id + 1 |}
          (rows df)
    /\ In {| player_id := loser_id; player_name := loser_name;
             elo_rating := snd new;
             matches_played := stored_matches t category loser_id + 1 |}
          (rows df).
Proof.
  intros Hcalm Hdiff. cbn zeta.
  assert (Hcalm3 : calm 3 (outages w) = true).
  { apply calm_step in Hcalm as [H1 Hcalm].
    apply calm_step in Hcalm as [H2 Hcalm].
    apply calm_step in Hcalm as [H3 _].
    cbn [calm] in *. destruct (outages w) as [|[?|] [|[?|] [|[?|] ?]]];
      cbn in *; congruence. }
  assert (Hav : available (snd (record_matchup category winner_id winner_name
                                  loser_id loser_name w)) = true).
  { unfold available. rewrite outages_after_matchup.
    apply calm_step in Hcalm as [_ Hcalm].
    apply calm_step in Hcalm as [_ Hcalm].
    apply calm_step in Hcalm as [_ Hcalm]. exact Hcalm. }
  rewrite get_leaderboard_run. eexists. split; [reflexivity|].
  cbn [rows]. unfold loaded. cbn [rows]. rewrite Hav.
  rewrite (record_matchup_table _ _ _ _ _ _ Hcalm3). cbn zeta.
  set (new := update_ratings _ _).
  set (winner_row := row_of category winner_id _ _ _).
  set (loser_row := row_of category loser_id _ _ _).
  assert (Hne : Z.eqb loser_id winner_id = false)
    by (apply Z.eqb_neq; congruence).
  split.
  - apply (Permutation_in _ (Permutation_sym (sort_values_perm _))).
    apply (in_map rating_columns _ winner_row).
    apply (stored_in_category _ category winner_id).
    rewrite stored_upsert. unfold loser_row at 1.
    rewrite has_key_row_of, String.eqb_refl, Hne. cbn [andb].
    rewrite stored_upsert. unfold winner_row at 1.
    rewrite has_key_row_of, String.eqb_refl, Z.eqb_refl. reflexivity.
  - apply (Permutation_in _ (Permutation_sym (sort_values_perm _))).
    apply (in_map rating_columns _ loser_row).
    apply (stored_in_category _ category loser_id).
    rewrite stored_upsert. unfold loser_row at 1.
    rewrite has_key_row_of, String.eqb_refl, Z.eqb_refl. reflexivity.
Qed.

Lemma vote_then_leaderboard_witness :
  calm 4 (outages fresh_world) = true
  /\ 669373%Z <> 676979%Z
  /\ exists df,
       fst (get_leaderboard "al_cy_young" None
              (snd (record_matchup "al_cy_young" 669373 "Tarik Skubal"
                                   676979 "Garrett Crochet" fresh_world)))
       = Ok df
       /\ In {| player_id := 669373; player_name := "Tarik Skubal";
                elo_rating := fst (update_ratings 1500 1500);
                matches_played := 1 |}
             (rows df).
Proof.
  assert (Hdiff : 669373%Z <> 676979%Z) by lia.
  split; [reflexivity|]. split; [exact Hdiff|].
  destruct (vote_then_leaderboard "al_cy_young" 669373 "Tarik Skubal"
              676979 "Garrett Crochet" fresh_world eq_refl Hdiff)
    as [df [Hrun [Hwin _]]].
  exists df. split; [exact Hrun | exact Hwin].
Defined.

(** ** More on the matchup selector *)

Section Selection.

Variables (df : list Player) (rng : nat -> nat * nat).

Lemma sample2_members (d : nat * nat) (player1 player2 : Player) :
  sample2 df d = Ok (player1, player2) -> In player1 df /\ In player2 df.
Proof.
  intros Hdraw.
  assert (Hlen : (2 <= List.length df)%nat).
  { destruct df as [|first [|second rest]]; cbn in *; try discriminate; lia. }
  destruct (sample2_positions df d Hlen) as [i [j [first [Hi [Hj [_ Heq]]]]]].
  rewrite Heq in Hdraw. inversion Hdraw; subst.
  split; apply nth_In; assumption.
Qed.

Lemma sample2_distinct_ids (d : nat * nat) :
  (2 <= List.length df)%nat ->
  NoDup (map xMLBAMID df) ->
  exists player1 player2,
    sample2 df d = Ok (player1, player2)
    /\ xMLBAMID player1 <> xMLBAMID player2.
Proof.
  intros Hlen Hnodup.
  destruct (sample2_positions df d Hlen) as [i [j [first [Hi [Hj [Hij Heq]]]]]].
  exists (nth i df first), (nth j df first). split; [exact Heq|].
  intros Hsame. apply Hij.
  apply (proj1 (NoDup_nth (map xMLBAMID df) (xMLBAMID first)) Hnodup);
    rewrite ?length_map; try assumption.
  rewrite !map_nth. exact Hsame.
Qed.

(** The loop over a range of attempts returns the first draw whose two rows
    have different identities. *)
Lemma attempt_loop_first_good (start count k : nat)
    (player1 player2 : Player) :
  (start <= k < start + count)%nat ->
  (forall attempt, (start <= attempt < k)%nat ->
     exists p q, sample2 df (rng attempt) = Ok (p, q)
                 /\ xMLBAMID p = xMLBAMID q) ->
  sample2 df (rng k) = Ok (player1, player2) ->
  xMLBAMID player1 <> xMLBAMID player2 ->
  attempt_loop df rng (seq start count) = Ok (Some player1, Some player2).
Proof.
  revert start. induction count as [|count IH]; intros start Hk Hbad Hgood Hdiff;
    [lia|].
  cbn [seq attempt_loop].
  destruct (Nat.eq_dec start k) as [-> | Hne].
  - rewrite Hgood. apply Z.eqb_neq in Hdiff. rewrite Hdiff. reflexivity.
  - destruct (Hbad start ltac:(lia)) as [p [q [-> Hsame]]].
    rewrite Hsame, Z.eqb_refl. cbn [negb].
    apply IH; [lia | | assumption | assumption].
    intros attempt Hrange. apply Hbad. lia.
Qed.

Lemma attempt_loop_all_bad (start count : nat) :
  (forall attempt, (start <= attempt < start + count)%nat ->
     exists p q, sample2 df (rng attempt) = Ok (p, q)
                 /\ xMLBAMID p = xMLBAMID q) ->
  attempt_loop df rng (seq start count)
  = Raise (ValueError
      "Failed to select two different players after 10 attempts").
Proof.
  revert start. induction count as [|count IH]; intros start Hbad;
    cbn [seq attempt_loop]; [reflexivity|].
  destruct (Hbad start ltac:(lia)) as [p [q [-> Hsame]]].
  rewrite Hsame, Z.eqb_refl. cbn [negb].
  apply IH. intros attempt Hrange. apply Hbad. lia.
Qed.

Lemma attempt_loop_sound (attempts : list nat) (o1 o2 : option Player) :
  attempt_loop df rng attempts = Ok (o1, o2) ->
  exists player1 player2,
    o1 = Some player1 /\ o2 = Some player2
    /\ In player1 df /\ In player2 df
    /\ xMLBAMID player1 <> xMLBAMID player2.
Proof.
  induction attempts as [|attempt rest IH]; cbn [attempt_loop];
    [discriminate|].
  destruct (sample2 df (rng attempt)) as [[p q]|e] eqn:Hdraw; [|discriminate].
  destruct (Z.eqb (xMLBAMID p) (xMLBAMID q)) eqn:Hcmp; cbn [negb].
  - exact IH.
  - intros Hret. inversion Hret; subst.
    apply sample2_members in Hdraw as [Hp Hq].
    apply Z.eqb_neq in Hcmp. exists p, q. repeat split; assumption.
Qed.

End Selection.

(** X18: on any pool of at least two competitors whose identities are all
    different, the selector returns two members of the pool with different
    identities; it neither raises nor answers [(None, None)]. *)
Theorem select_from_distinct_pool (df : list Player)
    (rng : nat -> nat * nat) :
  (2 <= List.length df)%nat ->
  NoDup (map xMLBAMID df) ->
  exists player1 player2,
    select_random_matchup df rng = Ok (Some player1, Some player2)
    /\ In player1 df /\ In player2 df
    /\ xMLBAMID player1 <> xMLBAMID player2.
Proof.
  intros Hlen Hnodup.
  destruct (sample2_distinct_ids df (rng 0%nat) Hlen Hnodup)
    as [p [q [Hdraw Hdiff]]].
  exists p, q.
  destruct (sample2_members df (rng 0%nat) p q Hdraw) as [Hp Hq].
  split; [|repeat split; assumption].
  unfold select_random_matchup, max_attempts.
  destruct (Nat.ltb_spec (List.length df) 2) as [Hshort | _]; [lia|].
  apply (attempt_loop_first_good df rng 0 10 0 p q);
    [lia | intros attempt Hrange; lia | exact Hdraw | exact Hdiff].
Qed.

Lemma select_from_distinct_pool_witness :
  exists player1 player2,
    select_random_matchup
      [{| xMLBAMID := 669373; nameFirstLast := "Tarik Skubal" |};
       {| xMLBAMID := 676979; nameFirstLast := "Garrett Crochet" |};
       {| xMLBAMID := 608331; nameFirstLast := "Max Fried" |}]
      (fun attempt => (attempt, S attempt))
    = Ok (Some player1, Some player2)
    /\ xMLBAMID player1 <> xMLBAMID player2.
Proof.
  destruct (select_from_distinct_pool
              [{| xMLBAMID := 669373; nameFirstLast := "Tarik Skubal" |};
               {| xMLBAMID := 676979; nameFirstLast := "Garrett Crochet" |};
               {| xMLBAMID := 608331; nameFirstLast := "Max Fried" |}]
              (fun attempt => (attempt, S attempt)))
    as [p [q [Hrun [_ [_ Hdiff]]]]].
  - cbn. lia.
  - cbn. repeat constructor; cbn; intuition lia.
  - exists p, q. split; assumption.
Defined.

(** X19: whatever the pool and the random draws, a pair that the selector
    returns consists of two rows of the pool with different identities, and
    [(None, None)] is returned only for a pool of fewer than two rows: the
    same player is never offered against himself. *)
Theorem select_random_matchup_sound (df : list Player)
    (rng : nat -> nat * nat) (o1 o2 : option Player) :
  select_random_matchup df rng = Ok (o1, o2) ->
  (o1 = None /\ o2 = None /\ (List.length df < 2)%nat)
  \/ (exists player1 player2,
        o1 = Some player1 /\ o2 = Some player2
        /\ In player1 df /\ In player2 df
        /\ xMLBAMID player1 <> xMLBAMID player2).
Proof.
  unfold select_random_matchup.
  destruct (Nat.ltb_spec (List.length df) 2) as [Hshort | Hlen].
  - intros Hret. inversion Hret; subst. left. auto.
  - intros Hret. right. eapply attempt_loop_sound. exact Hret.
Qed.

Lemma select_random_matchup_sound_witness :
  select_random_matchup
    [{| xMLBAMID := 669373; nameFirstLast := "Tarik Skubal" |}]
    (fun attempt => (attempt, attempt))
  = Ok (None, None)
  /\ (List.length [{| xMLBAMID := 669373; nameFirstLast := "Tarik Skubal" |}]
      < 2)%nat.
Proof.
  split; [reflexivity|].
  destruct (select_random_matchup_sound
              [{| xMLBAMID := 669373; nameFirstLast := "Tarik Skubal" |}]
              (fun attempt => (attempt, attempt)) None None eq_refl)
    as [[_ [_ Hshort]] | [p [q [Habs _]]]];
    [exact Hshort | discriminate].
Defined.

(** X20: the retries are bounded by ten: when each of the ten draws gives
    two rows with the same identity, the selector raises the [ValueError]
    "Failed to select two different players after 10 attempts". *)
Theorem select_exhausts_after_ten (df : list Player)
    (rng : nat -> nat * nat) :
  (2 <= List.length df)%nat ->
  (forall attempt, (attempt < 10)%nat ->
     exists p q, sample2 df (rng attempt) = Ok (p, q)
                 /\ xMLBAMID p = xMLBAMID q) ->
  select_random_matchup df rng
  = Raise (ValueError
      "Failed to select two different players after 10 attempts").
Proof.
  intros Hlen Hbad. unfold select_random_matchup, max_attempts.
  destruct (Nat.ltb_spec (List.length df) 2) as [Hshort | _]; [lia|].
  apply attempt_loop_all_bad. intros attempt Hrange. apply Hbad. lia.
Qed.

Lemma select_exhausts_after_ten_witness :
  select_random_matchup
    [{| xMLBAMID := 669373; nameFirstLast := "Tarik Skubal" |};
     {| xMLBAMID := 669373; nameFirstLast := "T. Skubal" |}]
    (fun attempt => (attempt, attempt))
  = Raise (ValueError
      "Failed to select two different players after 10 attempts").
Proof.
  apply select_exhausts_after_ten; [cbn; lia|].
  intros attempt _.
  destruct (sample2_pair
              {| xMLBAMID := 669373; nameFirstLast := "Tarik Skubal" |}
              {| xMLBAMID := 669373; nameFirstLast := "T. Skubal" |}
              (attempt, attempt)) as [H | H];
    rewrite H; eauto.
Defined.

(** X21: the selector retries past degenerate draws: when the draws before
    attempt [k < 10] each give two rows with the same identity and draw [k]
    gives two rows with different identities, the pair of draw [k] is
    returned. *)
Theorem select_returns_first_good_draw (df : list Player)
    (rng : nat -> nat * nat) (k : nat) (player1 player2 : Player) :
  (k < 10)%nat ->
  (forall attempt, (attempt < k)%nat ->
     exists p q, sample2 df (rng attempt) = Ok (p, q)
                 /\ xMLBAMID p = xMLBAMID q) ->
  sample2 df (rng k) = Ok (player1, player2) ->
  xMLBAMID player1 <> xMLBAMID player2 ->
  select_random_matchup df rng = Ok (Some player1, Some player2).
Proof.
  intros Hk Hbad Hgood Hdiff. unfold select_random_matchup, max_attempts.
  destruct (Nat.ltb_spec (List.length df) 2) as [Hshort | _].
  - destruct df as [|first [|second rest]]; cbn in Hshort, Hgood;
      try discriminate; lia.
  - apply (attempt_loop_first_good df rng 0 10 k); try assumption; [lia|].
    intros attempt Hrange. apply Hbad. lia.
Qed.

Lemma select_returns_first_good_draw_witness :
  select_random_matchup
    [{| xMLBAMID := 669373; nameFirstLast := "Tarik Skubal" |};
     {| xMLBAMID := 669373; nameFirstLast := "T. Skubal" |};
     {| xMLBAMID := 676979; nameFirstLast := "Garrett Crochet" |}]
    (fun attempt => match attempt with O => (0, 0) | _ => (0, 1) end)%nat
  = Ok (Some {| xMLBAMID := 669373; nameFirstLast := "Tarik Skubal" |},
        Some {| xMLBAMID := 676979; nameFirstLast := "Garrett Crochet" |}).
Proof.
  apply (select_returns_first_good_draw _ _ 1%nat); [lia | | reflexivity |].
  - intros [|attempt] Hlt; [|lia].
    eexists _, _. split; reflexivity.
  - cbn. lia.
Defined.

(** ** Handling a vote *)

Module AppFacts.

Import App.

Local Open Scope string_scope.

Lemma append_inj_r (prefix a b : string) :
  prefix ++ a = prefix ++ b -> a = b.
Proof.
  induction prefix as [|c prefix IH]; cbn; intros H; [exact H|].
  inversion H. auto.
Qed.

Lemma handle_vote_run (award_category : string) (winner loser : Player)
    (s : Session) :
  handle_vote award_category winner loser s
  = (Reran,
     {| world :=
          snd (record_matchup award_category
                 (xMLBAMID winner) (Selector.nameFirstLast winner)
                 (xMLBAMID loser) (Selector.nameFirstLast loser) (world s));
        session_state :=
          setitem ("vote_submitted_" ++ award_category) (SBool true)
            (setitem ("current_matchup_" ++ award_category) SNone
               (session_state s));
        successes :=
          app (successes s)
              ["Vote recorded! " ++ Selector.nameFirstLast winner
               ++ " wins this matchup."] |}).
Proof.
  unfold handle_vote. rewrite record_matchup_run.
  destruct (update_ratings _ _). reflexivity.
Qed.

(** X22: [handle_vote] never fails and always reports success: whatever
    the store does, it shows "Vote recorded! <winner> wins this matchup.",
    clears the category's current matchup, sets the category's
    vote-submitted flag and ends the run with [st.rerun()]. *)
Theorem handle_vote_reports_success (award_category : string)
    (winner loser : Player) (s : Session) :
  let s' := snd (handle_vote award_category winner loser s) in
  fst (handle_vote award_category winner loser s) = Reran
  /\ successes s'
     = app (successes s)
           ["Vote recorded! " ++ Selector.nameFirstLast winner
            ++ " wins this matchup."]
  /\ session_state s' ("current_matchup_" ++ award_category) = Some SNone
  /\ session_state s' ("vote_submitted_" ++ award_category)
     = Some (SBool true).
Proof.
  cbn zeta. rewrite handle_vote_run. cbn [fst snd successes session_state].
  repeat split; unfold setitem.
  - cbn. rewrite String.eqb_refl. reflexivity.
  - rewrite String.eqb_refl. reflexivity.
Qed.

(** X23: when all three accesses to the store fail, [handle_vote] still
    shows the success message, although the table is unchanged and three
    error messages were shown. *)
Theorem handle_vote_during_outage (award_category : string)
    (winner loser : Player) (s : Session) (e1 e2 e3 : string)
    (later : list (option string)) :
  outages (world s) = Some e1 :: Some e2 :: Some e3 :: later ->
  let s' := snd (handle_vote award_category winner loser s) in
  table (world s') = table (world s)
  /\ ui (world s')
     = app (ui (world s))
           ["Error loading ratings: " ++ e1;
            "Error updating rating: " ++ e2;
            "Error updating rating: " ++ e3]
  /\ successes s'
     = app (successes s)
           ["Vote recorded! " ++ Selector.nameFirstLast winner
            ++ " wins this matchup."].
Proof.
  intros Hout. cbn zeta. rewrite handle_vote_run.
  cbn [snd world successes]. rewrite record_matchup_run. cbn [snd].
  split; [|split; [|reflexivity]].
  - rewrite !table_after_write, table_after_read.
    unfold available. rewrite outages_after_write, outages_after_read, Hout.
    reflexivity.
  - unfold after_write at 1. rewrite outages_after_write, outages_after_read.
    rewrite Hout. cbn [tl ui].
    unfold after_write at 1. rewrite outages_after_read, Hout. cbn [tl ui].
    unfold after_read. rewrite Hout. cbn [ui].
    rewrite <- !app_assoc. reflexivity.
Qed.

Lemma handle_vote_during_outage_witness :
  let s :=
    {| world :=
         {| table := two_rated;
            outages := [Some "down"; Some "down"; Some "down"];
            requests := []; ui := [] |};
       session_state := fun _ => None;
       successes := [] |} in
  let s' :=
    snd (handle_vote "al_cy_young"
           {| xMLBAMID := 669373; Selector.nameFirstLast := "Tarik Skubal" |}
           {| xMLBAMID := 676979;
              Selector.nameFirstLast := "Garrett Crochet" |} s) in
  table (world s') = two_rated
  /\ successes s' = ["Vote recorded! Tarik Skubal wins this matchup."].
Proof.
  cbn zeta.
  destruct (handle_vote_during_outage "al_cy_young"
              {| xMLBAMID := 669373;
                 Selector.nameFirstLast := "Tarik Skubal" |}
              {| xMLBAMID := 676979;
                 Selector.nameFirstLast := "Garrett Crochet" |}
              {| world :=
                   {| table := two_rated;
                      outages := [Some "down"; Some "down"; Some "down"];
                      requests := []; ui := [] |};
                 session_state := fun _ => None;
                 successes := [] |}
              "down" "down" "down" [] eq_refl) as [Htable [_ Hshown]].
  split; [exact Htable | exact Hshown].
Defined.

(** X24: the session keys of the categories do not collide: a vote in one
    category leaves the current matchup and the vote-submitted flag of
    every other category as they were. *)
Theorem handle_vote_other_category (award_category other : string)
    (winner loser : Player) (s : Session) :
  other <> award_category ->
  let s' := snd (handle_vote award_category winner loser s) in
  session_state s' ("current_matchup_" ++ other)
  = session_state s ("current_matchup_" ++ other)
  /\ session_state s' ("vote_submitted_" ++ other)
     = session_state s ("vote_submitted_" ++ other).
Proof.
  intros Hother. cbn zeta. rewrite handle_vote_run. cbn [snd session_state].
  unfold setitem.
  assert (Hm : String.eqb ("current_matchup_" ++ other)
                 ("current_matchup_" ++ award_category) = false).
  { apply String.eqb_neq. intros H. apply append_inj_r in H. contradiction. }
  assert (Hv : String.eqb ("vote_submitted_" ++ other)
                 ("vote_submitted_" ++ award_category) = false).
  { apply String.eqb_neq. intros H. apply append_inj_r in H. contradiction. }
  split.
  - rewrite Hm. reflexivity.
  - rewrite Hv. reflexivity.
Qed.

Lemma handle_vote_other_category_witness :
  "nl_cy_young" <> "al_cy_young"
  /\ session_state
       (snd (handle_vote "al_cy_young"
               {| xMLBAMID := 669373;
                  Selector.nameFirstLast := "Tarik Skubal" |}
               {| xMLBAMID := 676979;
                  Selector.nameFirstLast := "Garrett Crochet" |}
               {| world := steady_world;
                  session_state := fun _ => Some (SBool false);
                  successes := [] |}))
       ("vote_submitted_" ++ "nl_cy_young")
     = Some (SBool false).
Proof.
  assert (Hother : "nl_cy_young" <> "al_cy_young") by discriminate.
  split; [exact Hother|].
  apply (proj2 (handle_vote_other_category "al_cy_young" "nl_cy_young"
                  {| xMLBAMID := 669373;
                     Selector.nameFirstLast := "Tarik Skubal" |}
                  {| xMLBAMID := 676979;
                     Selector.nameFirstLast := "Garrett Crochet" |}
                  {| world := steady_world;
                     session_state := fun _ => Some (SBool false);
                     successes := [] |} Hother)).
Defined.

End AppFacts.

(** ** The data fetchers *)

Module FetcherFacts.

Import Fetcher.

Local Open Scope string_scope.
Local Open Scope fetch_scope.

Section Steps.

Context {A B : Type}.

Lemma bind_lift (o : Outcome A) (k : A -> F B) (net : Net) :
  bind (lift o) k net
  = match o with
    | Returns a => k a net
    | Raises e => (Raises e, net)
    end.
Proof. unfold bind, lift. destruct o; reflexivity. Qed.

Lemma bind_ret (a : A) (k : A -> F B) (net : Net) :
  bind (ret a) k net = k a net.
Proof. reflexivity. Qed.

End Steps.

(** The network after one more call. *)
Lemma bind_requests_get {B : Type} (c : Call) (k : Response -> F B)
    (net : Net) :
  bind (requests_get c) k net
  = let net' :=
      {| respond := respond net; sent := app (sent net) [c];
         printed := printed net |} in
    match respond net c with
    | Unreachable error => (Raises (RequestException error), net')
    | Answered response => k response net'
    end.
Proof.
  unfold bind, requests_get. destruct (respond net c); reflexivity.
Qed.

Lemma raise_for_status_ok (response : Response) :
  ~ (400 <= status_code response < 600)%Z ->
  raise_for_status response = Returns tt.
Proof.
  intros Hok. unfold raise_for_status.
  destruct (Z.leb_spec 400 (status_code response));
    destruct (Z.ltb_spec (status_code response) 500);
    destruct (Z.leb_spec 500 (status_code response));
    destruct (Z.ltb_spec (status_code response) 600);
    cbn [andb]; try reflexivity; lia.
Qed.

Lemma raise_for_status_error (response : Response) :
  (400 <= status_code response < 600)%Z ->
  exists msg, raise_for_status response = Raises (RequestException msg).
Proof.
  intros Herr. unfold raise_for_status.
  destruct (Z.leb_spec 400 (status_code response));
    destruct (Z.ltb_spec (status_code response) 500);
    destruct (Z.leb_spec 500 (status_code response));
    destruct (Z.ltb_spec (status_code response) 600);
    cbn [andb]; try lia; eauto.
Qed.

Lemma raise_for_status_cases (response : Response) :
  raise_for_status response = Returns tt
  \/ exists msg, raise_for_status response = Raises (RequestException msg).
Proof.
  unfold raise_for_status.
  destruct (_ && _)%bool; [right; eauto|].
  destruct (_ && _)%bool; [right; eauto | left; reflexivity].
Qed.

Lemma except_request_never {A : Type} (body : F A)
    (handler : PyError -> F A) (net : Net) (e : PyError) :
  is_RequestException e = true ->
  (forall error n, fst (handler error n) <> Raises e) ->
  fst (except_request body handler net) <> Raises e.
Proof.
  intros Hclass Hhandler. unfold except_request.
  destruct (body net) as [[a | raised] net']; cbn [fst]; [discriminate|].
  destruct (is_RequestException raised) eqn:Hraised.
  - apply Hhandler.
  - cbn [fst]. intros Heq. inversion Heq. congruence.
Qed.

End FetcherFacts.

Module FetcherTheorems.

Import Fetcher FetcherNotions FetcherFacts.

Local Open Scope string_scope.
Local Open Scope fetch_scope.

(** X25: [fetch_mlb_player_info] never lets a [RequestException] reach its
    caller, the [JSONDecodeError] of [response.json()] included.  When the
    request fails (no answer, a status 4xx or 5xx, a body that is not JSON)
    it has sent its one call, prints one line that starts with
    "Error fetching MLB player info for ID <id>: " and returns [None]. *)
Theorem fetch_mlb_player_info_swallows (mlbam_id : Z) (net : Net) :
  (forall msg,
     fst (fetch_mlb_player_info mlbam_id net) <> Raises (RequestException msg))
  /\ (forall msg,
        fst (fetch_mlb_player_info mlbam_id net)
        <> Raises (JSONDecodeError msg))
  /\ (request_fails (respond net (player_call mlbam_id)) ->
      exists error,
        fetch_mlb_player_info mlbam_id net
        = (Returns None,
           {| respond := respond net;
              sent := app (sent net) [player_call mlbam_id];
              printed :=
                app (printed net)
                    ["Error fetching MLB player info for ID "
                     ++ string_of_Z mlbam_id ++ ": " ++ error] |})).
Proof.
  split; [|split].
  - intros msg. unfold fetch_mlb_player_info.
    apply except_request_never; [reflexivity|]. intros error n. discriminate.
  - intros msg. unfold fetch_mlb_player_info.
    apply except_request_never; [reflexivity|]. intros error n. discriminate.
  - intros Hfail. unfold fetch_mlb_player_info, except_request.
    rewrite bind_requests_get. cbn zeta.
    fold (player_call mlbam_id). unfold request_fails in Hfail.
    destruct (respond net (player_call mlbam_id)) as [error | response].
    + exists error. reflexivity.
    + rewrite bind_lift. destruct Hfail as [Hstatus | [error Hbody]].
      * destruct (raise_for_status_error response Hstatus) as [msg ->].
        exists msg. reflexivity.
      * destruct (raise_for_status_cases response) as [-> | [msg ->]];
          [|exists msg; reflexivity].
        rewrite bind_lift. unfold response_json. rewrite Hbody.
        exists error. reflexivity.
Qed.

Lemma fetch_mlb_player_info_swallows_witness :
  request_fails (respond unreachable (player_call 669373))
  /\ fst (fetch_mlb_player_info 669373 unreachable) = Returns None.
Proof.
  split; [exact I|].
  destruct (proj2 (proj2 (fetch_mlb_player_info_swallows 669373 unreachable))
              I) as [error Hrun].
  rewrite Hrun. reflexivity.
Defined.

(** The run of [fetch_mlb_player_info] on an answer with a JSON body. *)
Lemma fetch_mlb_player_info_on_json (mlbam_id : Z) (net : Net)
    (data : json) :
  answers_json (respond net (player_call mlbam_id)) data ->
  forall (rest : json -> F (option PlayerInfo))
         (handler : PyError -> F (option PlayerInfo)),
    except_request
      (response <- requests_get (player_call mlbam_id) ;;
       lift (raise_for_status response) ;;;
       data' <- lift (response_json response) ;;
       rest data')
      handler net
    = except_request (rest data) handler
        (after_call (player_call mlbam_id) net).
Proof.
  intros [response [Hreply [Hstatus Hbody]]] rest handler.
  unfold except_request. rewrite bind_requests_get. cbn zeta.
  rewrite Hreply, bind_lift, (raise_for_status_ok response Hstatus), bind_lift.
  unfold response_json. rewrite Hbody. reflexivity.
Qed.

(** X26: when the MLB API answers with an object whose "people" list
    starts with an object, [fetch_mlb_player_info] returns the player's
    info: the name is the player's "fullName", or "Unknown" when the key is
    missing; the team id and name are [None] when the player has no
    "currentTeam", and the team's "id" and "name" (or [None]) when
    "currentTeam" is an object.  A "currentTeam" that is not an object makes
    it raise an [AttributeError]. *)
Theorem fetch_mlb_player_info_found (mlbam_id : Z) (net : Net)
    (entries player : list (string * json)) (others : list json) :
  answers_json (respond net (player_call mlbam_id)) (JDict entries) ->
  lookup "people" entries = Some (JList (JDict player :: others)) ->
  let full_name :=
    match lookup "fullName" player with
    | Some name => name
    | None => JStr "Unknown"
    end in
  fst (fetch_mlb_player_info mlbam_id net)
  = match lookup "currentTeam" player with
    | None =>
        Returns (Some {| nameFirstLast := full_name;
                         currentTeamID := JNull;
                         currentTeamName := JNull |})
    | Some (JDict team) =>
        Returns (Some {| nameFirstLast := full_name;
                         currentTeamID :=
                           match lookup "id" team with
                           | Some id => id
                           | None => JNull
                           end;
                         currentTeamName :=
                           match lookup "name" team with
                           | Some name => name
                           | None => JNull
                           end |})
    | Some _ => Raises AttributeError
    end.
Proof.
  intros Hanswer Hpeople. cbn zeta. unfold fetch_mlb_player_info.
  fold (player_call mlbam_id).
  rewrite (fetch_mlb_player_info_on_json mlbam_id net (JDict entries) Hanswer).
  unfold except_request, bind, lift, ret.
  cbn [contains getitem]. rewrite !Hpeople.
  cbn [len List.length Nat.ltb Nat.leb getitem0 get contains getitem].
  destruct (lookup "currentTeam" player) as [[| | | | | |team]|];
    reflexivity.
Qed.

Lemma fetch_mlb_player_info_found_witness :
  answers_json
    (respond (answering (JDict [("people", JList [JDict []])]))
             (player_call 669373))
    (JDict [("people", JList [JDict []])])
  /\ fst (fetch_mlb_player_info 669373
            (answering (JDict [("people", JList [JDict []])])))
     = Returns (Some {| nameFirstLast := JStr "Unknown";
                        currentTeamID := JNull;
                        currentTeamName := JNull |}).
Proof.
  assert (Hanswer :
    answers_json
      (respond (answering (JDict [("people", JList [JDict []])]))
               (player_call 669373))
      (JDict [("people", JList [JDict []])])).
  { eexists. split; [reflexivity|]. split; [cbn; lia | reflexivity]. }
  split; [exact Hanswer|].
  apply (fetch_mlb_player_info_found 669373
           (answering (JDict [("people", JList [JDict []])]))
           [("people", JList [JDict []])] [] [] Hanswer eq_refl).
Defined.

(** X27: only [RequestException] is caught: a JSON body that is [null], a
    boolean or a number makes [fetch_mlb_player_info] raise a [TypeError] at
    ["people" in data], and nothing is printed. *)
Theorem fetch_mlb_player_info_type_error (mlbam_id : Z) (net : Net)
    (data : json) :
  answers_json (respond net (player_call mlbam_id)) data ->
  match data with
  | JNull | JBool _ | JInt _ | JFloat _ => True
  | _ => False
  end ->
  fetch_mlb_player_info mlbam_id net
  = (Raises TypeError, after_call (player_call mlbam_id) net).
Proof.
  intros Hanswer Hshape. unfold fetch_mlb_player_info.
  fold (player_call mlbam_id).
  rewrite (fetch_mlb_player_info_on_json mlbam_id net data Hanswer).
  unfold except_request. rewrite bind_lift.
  destruct data; try contradiction; reflexivity.
Qed.

Lemma fetch_mlb_player_info_type_error_witness :
  answers_json (respond (answering JNull) (player_call 669373)) JNull
  /\ fst (fetch_mlb_player_info 669373 (answering JNull)) = Raises TypeError.
Proof.
  assert (Hanswer :
    answers_json (respond (answering JNull) (player_call 669373)) JNull).
  { eexists. split; [reflexivity|]. split; [cbn; lia | reflexivity]. }
  split; [exact Hanswer|].
  rewrite (fetch_mlb_player_info_type_error 669373 (answering JNull) JNull
             Hanswer I).
  reflexivity.
Defined.

(** What [fetch_fangraphs_data] does once the category is known. *)
Lemma fetch_fangraphs_data_valid (award_category : string) (season : Z)
    (award_params : AwardParams) (net : Net) :
  lookup award_category AWARD_CATEGORIES = Some award_params ->
  sent (snd (fetch_fangraphs_data award_category season net))
  = app (sent net) [fangraphs_call award_params season]
  /\ forall msg,
       fst (fetch_fangraphs_data award_category season net)
       <> Raises (ValueError msg).
Proof.
  intros Hvalid. unfold fetch_fangraphs_data. rewrite Hvalid.
  fold (fangraphs_call award_params season).
  rewrite bind_requests_get. cbn zeta.
  destruct (respond net _) as [error | response];
    [split; [reflexivity | discriminate]|].
  rewrite bind_lift.
  destruct (raise_for_status_cases response) as [-> | [msg ->]];
    [|split; [reflexivity | discriminate]].
  rewrite bind_lift. unfold response_json.
  destruct (body response) as [data | error];
    [|split; [reflexivity | discriminate]].
  destruct data as [| | | | | |entries];
    try (split; [reflexivity | discriminate]).
  destruct (lookup "data" entries);
    split; try reflexivity; discriminate.
Qed.



(** A page that is not JSON, for a valid category: the exception is a
    [RequestException] and a [ValueError]. *)
Example fetch_fangraphs_data_not_json :
  exists e,
    fst (fetch_fangraphs_data "al_cy_young" 2025 answering_text) = Raises e
    /\ is_RequestException e = true
    /\ is_ValueError e = true.
Proof. eexists. repeat split; reflexivity. Qed.


(** X29: every award the app shows a tab for is a key of
    [AWARD_CATEGORIES]: for each of them [fetch_fangraphs_data] sends
    exactly one request, to the FanGraphs leaders URL with a timeout of 30
    seconds, and never raises the [ValueError] of an invalid category. *)
Theorem app_awards_are_valid (award_category : string) (season : Z)
    (net : Net) :
  In award_category (map fst App.AWARD_NAMES) ->
  exists award_params,
    lookup award_category AWARD_CATEGORIES = Some award_params
    /\ sent (snd (fetch_fangraphs_data award_category season net))
       = app (sent net) [fangraphs_call award_params season]
    /\ forall msg,
         fst (fetch_fangraphs_data award_category season net)
         <> Raises (ValueError msg).
Proof.
  intros Htab.
  assert (Hvalid : exists award_params,
            lookup award_category AWARD_CATEGORIES = Some award_params).
  { cbn in Htab.
    repeat (destruct Htab as [<- | Htab]; [eexists; reflexivity|]).
    contradiction. }
  destruct Hvalid as [award_params Hvalid].
  exists award_params. split; [exact Hvalid|].
  apply fetch_fangraphs_data_valid, Hvalid.
Qed.

Lemma app_awards_are_valid_witness :
  In "nl_rookie" (map fst App.AWARD_NAMES)
  /\ exists award_params,
       lookup "nl_rookie" AWARD_CATEGORIES = Some award_params
       /\ ind award_params = 2%Z.
Proof.
  assert (Htab : In "nl_rookie" (map fst App.AWARD_NAMES))
    by (cbn; intuition).
  split; [exact Htab|].
  destruct (app_awards_are_valid "nl_rookie" 2025 unreachable Htab)
    as [award_params [Hlookup _]].
  exists award_params. split; [exact Hlookup|].
  cbn in Hlookup. inversion Hlookup. reflexivity.
Defined.

Section Urls.

Lemma string_of_Z_inj (a b : Z) : string_of_Z a = string_of_Z b -> a = b.
Proof.
  unfold string_of_Z. intros Heq.
  assert (Hparse : forall z,
            DecimalString.NilZero.int_of_string
              (DecimalString.NilZero.string_of_int (Z.to_int z))
            = Some (Z.to_int z)).
  { intros z. apply DecimalString.NilZero.isi; destruct z; cbn;
      try discriminate; intros H; inversion H;
      eapply DecimalPos.Unsigned.to_uint_nonnil; eassumption. }
  pose proof (Hparse a) as Ha. rewrite Heq, Hparse in Ha.
  inversion Ha as [Hint].
  rewrite <- (DecimalZ.of_to a), <- (DecimalZ.of_to b), Hint. reflexivity.
Qed.

Lemma length_append (s t : string) :
  String.length (s ++ t) = (String.length s + String.length t)%nat.
Proof. induction s as [|c s IH]; cbn; [reflexivity | rewrite IH; reflexivity]. Qed.

Lemma append_cancel_r (s1 s2 suffix : string) :
  s1 ++ suffix = s2 ++ suffix -> s1 = s2.
Proof.
  revert s2. induction s1 as [|c s1 IH]; intros [|d s2] Heq; cbn in Heq.
  - reflexivity.
  - apply (f_equal String.length) in Heq. cbn in Heq.
    rewrite length_append in Heq. lia.
  - apply (f_equal String.length) in Heq. cbn in Heq.
    rewrite length_append in Heq. lia.
  - inversion Heq. f_equal. auto.
Qed.

Lemma append_cancel_l (prefix a b : string) :
  prefix ++ a = prefix ++ b -> a = b.
Proof.
  induction prefix as [|c prefix IH]; cbn; intros H; [exact H|].
  inversion H. auto.
Qed.

End Urls.

(** X30: different player ids give different headshot URLs and different
    team ids give different logo URLs. *)
Theorem image_urls_injective (a b : Z) :
  a <> b ->
  get_player_image_url a <> get_player_image_url b
  /\ get_team_logo_url a <> get_team_logo_url b.
Proof.
  intros Hdiff. unfold get_player_image_url, get_team_logo_url.
  split; intros Heq; apply Hdiff;
    apply append_cancel_l, append_cancel_r in Heq;
    apply string_of_Z_inj, Heq.
Qed.

Lemma image_urls_injective_witness :
  669373%Z <> 676979%Z
  /\ get_player_image_url 669373 <> get_player_image_url 676979.
Proof.
  assert (Hdiff : 669373%Z <> 676979%Z) by lia.
  split; [exact Hdiff|].
  apply (proj1 (image_urls_injective 669373 676979 Hdiff)).
Defined.

End FetcherTheorems.
